(** * EES: the run poller and the message extractor of the watsonx
      Orchestrate chat client

    A shallow embedding of [app.py] (the Streamlit front end) and of
    [fastapi_app.py] (the HTTP relay), and the properties of the token
    provider, the run poller, the message extractor and the session
    callback that the design document states about them. *)

From Stdlib Require Import List String Ascii Bool ZArith QArith Lia Arith.
From Stdlib Require Import SpecFloat.
From Stdlib Require Import Lqa.
Import ListNotations.

Local Open Scope string_scope.
Local Open Scope Z_scope.

(** * Python values decoded from JSON *)

Module Py.

(** What [resp.json()] can return: [None], a [bool], an [int] (unbounded),
    a [float] (binary64, including the infinities and NaN that Python's
    decoder accepts), a [str], a [list] or a [dict].  A [dict] keeps its
    insertion order, which [obj.values()] follows, so it is an association
    list; a Python [dict] holds a key once, and every function below reads
    the first binding of a key. *)
#[warnings="-register-all"]
Inductive json : Type :=
| JNull
| JBool (b : bool)
| JInt (n : Z)
| JFloat (f : spec_float)
| JString (s : string)
| JArray (items : list json)
| JObject (fields : list (string * json)).

Definition dict : Type := list (string * json).

(** [bool(v)]: the truth value Python gives to [v] in [if v], [not v] and
    [a or b]. *)
Definition truthy (v : json) : bool :=
  match v with
  | JNull => false
  | JBool b => b
  | JInt n => negb (n =? 0)
  | JFloat (S754_zero _) => false
  | JFloat _ => true
  | JString s => negb (s =? "")%string
  | JArray items => match items with [] => false | _ :: _ => true end
  | JObject fields => match fields with [] => false | _ :: _ => true end
  end.

(** [a or b]: [a] when it is truthy, else [b] (whatever [b] is). *)
Definition py_or (a b : json) : json := if truthy a then a else b.

(** [v == s] for a string literal [s]: only a [str] equals a [str]. *)
Definition eq_str (v : json) (s : string) : bool :=
  match v with
  | JString t => (t =? s)%string
  | _ => false
  end.

(** [isinstance(v, str)] and [isinstance(v, (dict, list))]. *)
Definition is_str (v : json) : bool :=
  match v with JString _ => true | _ => false end.

Definition is_dict (v : json) : bool :=
  match v with JObject _ => true | _ => false end.

Definition is_dict_or_list (v : json) : bool :=
  match v with JObject _ | JArray _ => true | _ => false end.

(** [k in obj]. *)
Fixpoint dict_contains (obj : dict) (k : string) : bool :=
  match obj with
  | [] => false
  | (k', _) :: rest => if (k' =? k)%string then true else dict_contains rest k
  end.

(** [obj.get(k)]: the value bound to [k], [None] when [k] is absent.  It is
    also [obj[k]] wherever the source guards the subscript by [k in obj]. *)
Fixpoint dict_get (obj : dict) (k : string) : json :=
  match obj with
  | [] => JNull
  | (k', v) :: rest => if (k' =? k)%string then v else dict_get rest k
  end.

(** [obj.values()], in insertion order. *)
Definition dict_values (obj : dict) : list json := map snd obj.

(** [s.lower()].  A [str] is held as its UTF-8 bytes; the ASCII capitals
    are mapped to their small letters and every other byte is kept.  No
    character outside ASCII lowers to a string of ASCII letters only, so
    comparing the result with an ASCII literal is exact. *)
Definition lower_ascii (c : ascii) : ascii :=
  let n := nat_of_ascii c in
  if (65 <=? n)%nat && (n <=? 90)%nat then ascii_of_nat (n + 32) else c.

Fixpoint lower (s : string) : string :=
  match s with
  | EmptyString => EmptyString
  | String c rest => String (lower_ascii c) (lower rest)
  end.

(** Nesting depth of a value: a scalar has depth 0, a container one more
    than its deepest member. *)
Fixpoint json_depth (v : json) : nat :=
  match v with
  | JArray items =>
      S ((fix deepest (l : list json) : nat :=
            match l with
            | [] => O
            | x :: rest => Nat.max (json_depth x) (deepest rest)
            end) items)
  | JObject fields =>
      S ((fix deepest (l : list (string * json)) : nat :=
            match l with
            | [] => O
            | (_, x) :: rest => Nat.max (json_depth x) (deepest rest)
            end) fields)
  | _ => O
  end.

(** [child v obj]: [v] is an element of the list [obj] or the value of a
    field of the dict [obj]; the strict sub-values of [obj] are what
    [child] reaches in one or more steps. *)
Inductive child (v : json) : json -> Prop :=
| child_item : forall items, In v items -> child v (JArray items)
| child_field : forall fields, In v (dict_values fields) -> child v (JObject fields).

(** Outcome of a call that may raise. *)
Inductive exn : Type :=
| HTTPStatusError (status_code : Z)
| HTTPException (status_code : Z) (detail : string)
| JSONDecodeError
| AttributeError
| ValueError.

Inductive result (A : Type) : Type :=
| Ok (a : A)
| Raised (e : exn).
Arguments Ok {A} a.
Arguments Raised {A} e.

(** An HTTP response as the code reads it: [resp.status_code],
    [resp.text], and [resp.json()], which raises when the body is not
    JSON ([None] here). *)
Record http_response : Type := mk_response {
  status_code : Z;
  text : string;
  json_body : option json
}.

Definition resp_json (resp : http_response) : result json :=
  match json_body resp with
  | Some j => Ok j
  | None => Raised JSONDecodeError
  end.

(** httpx's [Response.is_success], which [raise_for_status] tests: the
    status is in 200..299. *)
Definition is_success (code : Z) : bool := (200 <=? code) && (code <=? 299).

Definition raise_for_status (resp : http_response) : result unit :=
  if is_success (status_code resp) then Ok tt
  else Raised (HTTPStatusError (status_code resp)).

End Py.
Import Py.

(** * The message extractor *)

Module Extractor.

(** The keys of the first [for] loop of [find_message], in its order. *)
Definition candidate_keys : list string :=
  ["message"; "messages"; "content"; "output"; "text"; "result"].

(** [if candidate:] on the [str]-or-[None] that [find_message] returns:
    [None] and the empty string are both falsy. *)
Definition found (candidate : option string) : bool :=
  match candidate with
  | Some s => negb (s =? "")%string
  | None => false
  end.

Section Body.

(** The recursive occurrences of [find_message] inside its own body. *)
Variable rec : json -> option string.

(** [for item in items: candidate = find_message(item); if candidate:
    return candidate], followed by the function's final [return None].
    Both the fallback loop over [obj.values()] and the loop over a list
    are this loop. *)
Fixpoint search_each (items : list json) : option string :=
  match items with
  | [] => None
  | item :: rest =>
      let candidate := rec item in
      if found candidate then candidate else search_each rest
  end.

(** [for k in (...): if k in obj: v = obj[k]; if isinstance(v, str):
    return v; candidate = find_message(v); if candidate: return
    candidate]; [otherwise] is what the function goes on to when the
    loop ends without returning. *)
Fixpoint probe_keys (obj : dict) (keys : list string)
         (otherwise : option string) : option string :=
  match keys with
  | [] => otherwise
  | k :: rest =>
      if dict_contains obj k then
        match dict_get obj k with
        | JString s => Some s
        | v =>
            let candidate := rec v in
            if found candidate then candidate
            else probe_keys obj rest otherwise
        end
      else probe_keys obj rest otherwise
  end.

(** [obj.get("content") or obj.get("message") or obj.get("text")]. *)
Definition assistant_content (obj : dict) : json :=
  py_or (py_or (dict_get obj "content") (dict_get obj "message"))
        (dict_get obj "text").

(** The two loops that follow the [role] test in the [dict] branch. *)
Definition probe_then_search (obj : dict) : option string :=
  probe_keys obj candidate_keys (search_each (dict_values obj)).

(** The body of [find_message(obj)]. *)
Definition find_message_body (obj : json) : option string :=
  match obj with
  | JObject fields =>
      if eq_str (dict_get fields "role") "assistant" then
        match assistant_content fields with
        | JString s => Some s
        | (JObject _ | JArray _) as content => rec content
        | _ => probe_then_search fields
        end
      else probe_then_search fields
  | JArray items => search_each items
  | _ => None
  end.

End Body.

(** [find_message] unfolded [fuel] times; [bottom] stands for the calls
    below that. *)
Fixpoint find_message_fuel (bottom : json -> option string) (fuel : nat)
  : json -> option string :=
  match fuel with
  | O => bottom
  | S fuel' => find_message_body (find_message_fuel bottom fuel')
  end.

(** [find_message]: one unfolding more than the value is deep; by
    [find_message_fuel_enough] below no call reaches [bottom] then. *)
Definition find_message (obj : json) : option string :=
  find_message_fuel (fun _ => None) (S (json_depth obj)) obj.

(** [_extract_agent_message_from_run(run_json)], the same text in both
    files ([fastapi_app.py] declares it [async]; it awaits nothing). *)
Definition _extract_agent_message_from_run (run_json : json) : option string :=
  find_message run_json.

End Extractor.

(** * The run poller and the token provider *)

(** What both pollers hand back, and what their callers see of a run. *)
Module Poll.

(** The second component of the tuple a poller returns: the run body, or
    one of the two error dicts.  [TransportError c d] is
    [{"error": True, "status_code": c, "detail": d}]; [Timeout r m j] is
    [{"error": True, "status": "timeout", "detail": f"Run {r} still
    running after {m}s", "last_run": j}]. *)
Inductive run_details : Type :=
| RunBody (run_json : json)
| TransportError (status_code : Z) (detail : string)
| Timeout (run_id : json) (max_wait_seconds : Z) (last_run : json).

(** How a call of a poller ends on a transcript of responses: it returns
    the tuple [(message, details)], it raises, or it has consumed every
    response of the transcript and waits in [client.get] for the next. *)
Inductive poll_exit : Type :=
| Returns (message : option string) (details : run_details)
| Raises (e : exn)
| AwaitsResponse.

(** The request headers the launcher builds and the poller reuses:
    ["Authorization": f"Bearer {token}"] and, when it is sent,
    ["IAM-API_KEY"].  The fixed [Accept] and [Content-Type] entries are
    left out. *)
Record headers : Type := mk_headers {
  bearer : json;
  iam_api_key : option string
}.

(** [elapsed >= max_wait_seconds].  Elapsed time is an exact rational:
    the source adds binary64 numbers, which is exact for the intervals
    both front ends use (0.5 and 1.0). *)
Definition deadline_reached (elapsed : Q) (max_wait_seconds : Z) : bool :=
  Qle_bool (inject_Z max_wait_seconds) elapsed.

(** The [status = ... or ... or ...] chain of both pollers. *)
Definition status_field (fields : dict) : json :=
  py_or (py_or (dict_get fields "status") (dict_get fields "state"))
        (dict_get fields "run_status").

End Poll.
Import Poll.

(** ** app.py *)

Module App.
Import Extractor.

(** The three environment variables read at start-up. *)
Record config : Type := mk_config {
  SERVICE_INSTANCE_URL : string;
  IAM_API_KEY : string;
  DEFAULT_AGENT_ID : string
}.

(** [get_bearer_token_sync(api_key)]; [resp] is what the identity
    endpoint answers to the [POST]. *)
Definition get_bearer_token_sync (api_key : string) (resp : http_response)
  : result json :=
  match raise_for_status resp with
  | Raised e => Raised e
  | Ok _ =>
      match resp_json resp with
      | Raised e => Raised e
      | Ok (JObject body) => Ok (dict_get body "access_token")
      | Ok _ => Raised AttributeError
      end
  end.

(** Lines 69-73: [status] after the [isinstance(run_json, dict)] block. *)
Definition run_status (run_json : json) : json :=
  match run_json with
  | JObject fields =>
      match status_field fields with
      | JString s => JString (lower s)
      | status => status
      end
  | _ => JNull
  end.

(** Line 74: [not status or status != "running"]. *)
Definition is_terminal (status : json) : bool :=
  negb (truthy status) || negb (eq_str status "running").

(** The [while True] loop of [fetch_run_and_extract_message_sync], one
    iteration for each response of the transcript; the first component is
    the list of the [time.sleep] calls made, in order.  [time.sleep]
    raises [ValueError] on a negative length. *)
Fixpoint poll_loop (run_id : json) (max_wait_seconds : Z) (poll_interval : Q)
         (responses : list http_response) (elapsed : Q) : list Q * poll_exit :=
  match responses with
  | [] => ([], AwaitsResponse)
  | resp :: later =>
      if negb (status_code resp =? 200) then
        ([], Returns None (TransportError (status_code resp) (text resp)))
      else
        match resp_json resp with
        | Raised e => ([], Raises e)
        | Ok run_json =>
            if is_terminal (run_status run_json) then
              ([], Returns (_extract_agent_message_from_run run_json)
                           (RunBody run_json))
            else if deadline_reached elapsed max_wait_seconds then
              ([], Returns None (Timeout run_id max_wait_seconds run_json))
            else if negb (Qle_bool 0 poll_interval) then
              ([], Raises ValueError)
            else
              let (slept, exit) :=
                poll_loop run_id max_wait_seconds poll_interval later
                          (elapsed + poll_interval)%Q in
              (poll_interval :: slept, exit)
        end
  end.

Definition fetch_run_and_extract_message_sync (run_id : json) (hdrs : headers)
           (max_wait_seconds : Z) (poll_interval : Q)
           (responses : list http_response) : list Q * poll_exit :=
  poll_loop run_id max_wait_seconds poll_interval responses 0%Q.

(** The body [start_orchestrate_run_sync] posts: [thread_id] is added
    last, and only when it is truthy. *)
Definition launch_payload (message agent_id : string) (thread_id : json) : dict :=
  ([("message", JObject [("role", JString "user"); ("content", JString message)]);
    ("agent_id", JString agent_id)]
   ++ (if truthy thread_id then [("thread_id", thread_id)] else []))%list.

Definition launch_headers (cfg : config) (token : json) : headers :=
  {| bearer := token;
     iam_api_key := if (IAM_API_KEY cfg =? "")%string then None
                    else Some (IAM_API_KEY cfg) |}.

(** [start_orchestrate_run_sync(message, agent_id, thread_id, token)];
    [resp] is the answer of the run-creation endpoint to the [POST].  The
    first component is the body handed to [client.post], the second what
    the call returns or raises once the endpoint has answered.  A request
    that httpx refuses to send (a header value it cannot encode) has no
    answer; the call raises then too, which ends the callback as an
    answer with an error status does. *)
Definition start_orchestrate_run_sync (cfg : config) (message agent_id : string)
           (thread_id token : json) (resp : http_response)
  : dict * result (json * headers) :=
  (launch_payload message agent_id thread_id,
   match raise_for_status resp with
   | Raised e => Raised e
   | Ok _ =>
       match resp_json resp with
       | Raised e => Raised e
       | Ok body => Ok (body, launch_headers cfg token)
       end
   end).

(** *** The session and the [Send] callback *)

Record interaction : Type := mk_interaction {
  timestamp : string;
  interaction_thread_id : json;
  interaction_run_id : json;
  user_message : string;
  agent_message : option string
}.

(** [st.session_state]; [initialized] is whether the key ["initialized"]
    is in it. *)
Record session_state : Type := mk_session {
  history : list interaction;
  thread_id : json;
  message_input : string;
  last_error : string;
  initialized : bool
}.

Definition set_last_error (st : session_state) (e : string) : session_state :=
  {| history := history st; thread_id := thread_id st;
     message_input := message_input st; last_error := e;
     initialized := initialized st |}.

Definition set_thread_id (st : session_state) (t : json) : session_state :=
  {| history := history st; thread_id := t;
     message_input := message_input st; last_error := last_error st;
     initialized := initialized st |}.

Definition set_message_input (st : session_state) (m : string) : session_state :=
  {| history := history st; thread_id := thread_id st;
     message_input := m; last_error := last_error st;
     initialized := initialized st |}.

Definition append_history (st : session_state) (i : interaction) : session_state :=
  {| history := (history st ++ [i])%list; thread_id := thread_id st;
     message_input := message_input st; last_error := last_error st;
     initialized := initialized st |}.

(** Lines 109-123 of the script, which Streamlit runs again after every
    callback: the one-time initialisation, then the display and reset of
    [last_error]. *)
Definition script_run (st : session_state) : session_state :=
  let st0 :=
    if initialized st then st
    else {| history := []; thread_id := JNull; message_input := "";
            last_error := ""; initialized := true |} in
  if (last_error st0 =? "")%string then st0 else set_last_error st0 "".

(** What the outside world answers during one run of the callback, and
    the clock reading of [datetime.utcnow().isoformat()]. *)
Record send_env : Type := mk_send_env {
  token_response : http_response;
  launch_response : http_response;
  poll_responses : list http_response;
  utcnow_isoformat : string
}.

(** How the callback ends: it runs to its end or to one of its [return]s,
    an exception leaves it, or it waits for a response the transcript
    does not hold. *)
Inductive callback_exit : Type :=
| Finished
| Escaped (e : exn)
| Waiting.

(** The session state the callback leaves, the bodies it handed to
    [client.post] for the run-creation endpoint, and how it ended. *)
Record callback_run : Type := mk_callback_run {
  state_after : session_state;
  launches : list dict;
  exit_of : callback_exit
}.

Section Callback.

(** [str.strip()]. *)
Variable strip : string -> string.

Variable cfg : config.

(** [_send_callback()], under the module-level [agent_id =
    DEFAULT_AGENT_ID]. *)
Definition _send_callback (st : session_state) (env : send_env) : callback_run :=
  let msg := strip (message_input st) in
  if (msg =? "")%string then
    mk_callback_run (set_last_error st "Please enter a message.") [] Finished
  else
    match get_bearer_token_sync (IAM_API_KEY cfg) (token_response env) with
    | Raised _ =>
        mk_callback_run (set_last_error st "Failed to obtain IAM token.") []
                        Finished
    | Ok token =>
        let (posted, started) :=
          start_orchestrate_run_sync cfg msg (DEFAULT_AGENT_ID cfg)
                                     (thread_id st) token (launch_response env) in
        match started with
        | Raised _ =>
            mk_callback_run (set_last_error st "Failed to start run.") [posted]
                            Finished
        | Ok (JObject orchestrate_resp, hdrs) =>
            let returned_thread_id :=
              py_or (dict_get orchestrate_resp "thread_id")
                    (dict_get orchestrate_resp "threadId") in
            let st1 :=
              if truthy returned_thread_id && negb (truthy (thread_id st))
              then set_thread_id st returned_thread_id else st in
            let run_id :=
              py_or (dict_get orchestrate_resp "run_id")
                    (dict_get orchestrate_resp "runId") in
            let record (message : option string) :=
              let i := {| timestamp := utcnow_isoformat env ++ "Z";
                          interaction_thread_id := thread_id st1;
                          interaction_run_id := run_id;
                          user_message := msg;
                          agent_message := message |} in
              mk_callback_run (set_message_input (append_history st1 i) "")
                              [posted] Finished in
            if truthy run_id then
              match snd (fetch_run_and_extract_message_sync
                           run_id hdrs 5 (1 # 2) (poll_responses env)) with
              | Returns message _ => record message
              | Raises e => mk_callback_run st1 [posted] (Escaped e)
              | AwaitsResponse => mk_callback_run st1 [posted] Waiting
              end
            else record None
        | Ok (_, _) => mk_callback_run st [posted] (Escaped AttributeError)
        end
    end.

(** One send: the user leaves [typed] in the text area and clicks
    [Send]. *)
Record send_event : Type := mk_send_event {
  typed : string;
  world : send_env
}.

(** A conversation: sends against the same session state, the script
    running again after each callback.  It yields the final state and
    every body posted to the run-creation endpoint, in order.  A
    callback that waits for a response never ends, and nothing follows
    it. *)
Fixpoint conversation (st : session_state) (events : list send_event)
  : session_state * list dict :=
  match events with
  | [] => (st, [])
  | ev :: later =>
      let run := _send_callback (set_message_input st (typed ev)) (world ev) in
      match exit_of run with
      | Waiting => (state_after run, launches run)
      | _ =>
          let (st', posted) := conversation (script_run (state_after run)) later in
          (st', (launches run ++ posted)%list)
      end
  end.

End Callback.

End App.

(** ** fastapi_app.py *)

Module FastApi.
Import Extractor.

(** [get_bearer_token(api_key)]. *)
Definition get_bearer_token (api_key : string) (resp : http_response)
  : result json :=
  if status_code resp =? 200 then
    match resp_json resp with
    | Raised e => Raised e
    | Ok (JObject body) => Ok (dict_get body "access_token")
    | Ok _ => Raised AttributeError
    end
  else Raised (HTTPException (status_code resp) "Could not generate IAM token").

(** Lines 94-96: [status] is the chain's value, not lowered here. *)
Definition run_status (run_json : json) : json :=
  match run_json with
  | JObject fields => status_field fields
  | _ => JNull
  end.

(** Line 99: [not status or (isinstance(status, str) and status.lower()
    != "running")]. *)
Definition is_terminal (status : json) : bool :=
  negb (truthy status)
  || match status with
     | JString s => negb (lower s =? "running")%string
     | _ => false
     end.

(** The [while True] loop of [_fetch_run_and_extract_message].
    [asyncio.sleep] accepts any delay and returns at once on a delay that
    is not positive. *)
Fixpoint poll_loop (run_id : json) (max_wait_seconds : Z) (poll_interval : Q)
         (responses : list http_response) (elapsed : Q) : list Q * poll_exit :=
  match responses with
  | [] => ([], AwaitsResponse)
  | resp :: later =>
      if negb (status_code resp =? 200) then
        ([], Returns None (TransportError (status_code resp) (text resp)))
      else
        match resp_json resp with
        | Raised e => ([], Raises e)
        | Ok run_json =>
            if is_terminal (run_status run_json) then
              ([], Returns (_extract_agent_message_from_run run_json)
                           (RunBody run_json))
            else if deadline_reached elapsed max_wait_seconds then
              ([], Returns None (Timeout run_id max_wait_seconds run_json))
            else
              let (slept, exit) :=
                poll_loop run_id max_wait_seconds poll_interval later
                          (elapsed + poll_interval)%Q in
              (poll_interval :: slept, exit)
        end
  end.

Definition _fetch_run_and_extract_message (run_id : json) (hdrs : headers)
           (max_wait_seconds : Z) (poll_interval : Q)
           (responses : list http_response) : list Q * poll_exit :=
  poll_loop run_id max_wait_seconds poll_interval responses 0%Q.

End FastApi.

(** * The design document's wording *)

Module Design.

(** "First present wins": the value of the first of [keys] that is a key
    of [obj], whatever that value is. *)
Fixpoint first_present (obj : dict) (keys : list string) : option json :=
  match keys with
  | [] => None
  | k :: rest =>
      if dict_contains obj k then Some (dict_get obj k)
      else first_present obj rest
  end.

(** "First truthy wins": the value of the first of [keys] whose value in
    [obj] is truthy; when none is, the value of the last key ([None] when
    that key is absent). *)
Fixpoint first_truthy (obj : dict) (keys : list string) : json :=
  match keys with
  | [] => JNull
  | [k] => dict_get obj k
  | k :: rest =>
      if truthy (dict_get obj k) then dict_get obj k
      else first_truthy obj rest
  end.

Definition content_keys : list string := ["content"; "message"; "text"].

Definition status_keys : list string := ["status"; "state"; "run_status"].

(** "Normalize to lowercase if textual". *)
Definition lower_if_str (v : json) : json :=
  match v with
  | JString s => JString (lower s)
  | _ => v
  end.

(** The status value of a run body: the chain's value for an object,
    [None] for anything else. *)
Definition status_of (run_json : json) : json :=
  match run_json with
  | JObject fields => Poll.status_field fields
  | _ => JNull
  end.

(** "The case-insensitive string ["running"]". *)
Definition says_running (status : json) : bool :=
  match status with
  | JString s => (lower s =? "running")%string
  | _ => false
  end.

(** A value with no object whose [role] is ["assistant"] and no object
    holding a candidate key, at any depth. *)
Fixpoint no_trigger (v : json) : bool :=
  match v with
  | JObject fields =>
      negb (eq_str (dict_get fields "role") "assistant")
      && forallb (fun k => negb (dict_contains fields k)) Extractor.candidate_keys
      && (fix all (l : list (string * json)) : bool :=
            match l with
            | [] => true
            | (_, x) :: rest => no_trigger x && all rest
            end) fields
  | JArray items =>
      (fix all (l : list json) : bool :=
         match l with
         | [] => true
         | x :: rest => no_trigger x && all rest
         end) items
  | _ => true
  end.

(** A body posted to the run-creation endpoint carries [thread_id],
    with the value [t]. *)
Definition carries_thread (t : json) (posted : dict) : Prop :=
  dict_contains posted "thread_id" = true /\ dict_get posted "thread_id" = t.

End Design.
Import Design.

(** * The chat endpoint of fastapi_app.py *)

Module Relay.
Import Extractor.

(** The three environment variables [fastapi_app.py] reads at start-up. *)
Record config : Type := mk_config {
  SERVICE_INSTANCE_URL : string;
  IAM_API_KEY : string;
  DEFAULT_AGENT_ID : string
}.

(** [ChatRequest] once pydantic has validated the request body: [agent_id]
    holds [DEFAULT_AGENT_ID] when the body gave none, [thread_id] is a
    [str] or [None]. *)
Record ChatRequest : Type := mk_ChatRequest {
  message : string;
  agent_id : string;
  thread_id : option string
}.

(** What the outside world answers during one call of the endpoint. *)
Record chat_env : Type := mk_chat_env {
  token_response : http_response;
  launch_response : http_response;
  poll_responses : list http_response
}.

(** How [chat_with_agent] ends: it returns the dict
    [{"orchestrate_response": r, "agent_message": m, "run_details": d}];
    it raises [HTTPException(status_code, detail)], which FastAPI turns
    into a response with that status; another exception leaves it; or it
    waits for a response the transcript does not hold. *)
Inductive chat_exit : Type :=
| ChatReturns (orchestrate_response : json) (agent_message : option string)
              (run_details : option Poll.run_details)
| ChatHTTPError (status_code : Z) (detail : json)
| ChatRaises (e : exn)
| ChatAwaits.

(** Lines 130-140: the body posted to the run-creation endpoint. *)
Definition chat_payload (request : ChatRequest) : dict :=
  ([("message", JObject [("role", JString "user");
                         ("content", JString (message request))]);
    ("agent_id", JString (agent_id request))]
   ++ match thread_id request with
      | Some t => if negb (t =? "")%string then [("thread_id", JString t)] else []
      | None => []
      end)%list.

(** Lines 122-127: the headers, which always carry ["IAM-API_KEY"]. *)
Definition chat_headers (cfg : config) (token : json) : headers :=
  {| bearer := token; iam_api_key := Some (IAM_API_KEY cfg) |}.

(** [chat_with_agent(request)], on the answers of [env].  The first
    component lists the bodies handed to [client.post] for the
    run-creation endpoint; a request that httpx refuses to send has no
    answer and is outside [env].  The poller runs with its defaults,
    [max_wait_seconds=120] and [poll_interval=1.0]. *)
Definition chat_with_agent (cfg : config) (request : ChatRequest) (env : chat_env)
  : list dict * chat_exit :=
  match FastApi.get_bearer_token (IAM_API_KEY cfg) (token_response env) with
  | Raised (HTTPException code detail) => ([], ChatHTTPError code (JString detail))
  | Raised e => ([], ChatRaises e)
  | Ok token =>
      let hdrs := chat_headers cfg token in
      let response := launch_response env in
      ([chat_payload request],
       if status_code response =? 200 then
         match resp_json response with
         | Raised e => ChatRaises e
         | Ok (JObject resp_fields) =>
             let run_id :=
               py_or (dict_get resp_fields "run_id") (dict_get resp_fields "runId") in
             if truthy run_id then
               match snd (FastApi._fetch_run_and_extract_message
                            run_id hdrs 120 1 (poll_responses env)) with
               | Returns agent_message run_details =>
                   ChatReturns (JObject resp_fields) agent_message (Some run_details)
               | Raises e => ChatRaises e
               | AwaitsResponse => ChatAwaits
               end
             else ChatReturns (JObject resp_fields) None None
         | Ok _ => ChatRaises AttributeError
         end
       else if negb (text response =? "")%string then
         match resp_json response with
         | Raised e => ChatRaises e
         | Ok error_detail => ChatHTTPError (status_code response) error_detail
         end
       else
         ChatHTTPError (status_code response)
                       (JString "Unknown error from Orchestrate API"))
  end.

End Relay.

(** * What the further properties speak of *)

Module Observe.

(** The strings a value holds under one of the candidate keys, at any
    depth, in document order. *)
Fixpoint candidate_strings (v : json) : list string :=
  match v with
  | JObject fields =>
      (fix go (l : list (string * json)) : list string :=
         match l with
         | [] => []
         | (k, x) :: rest =>
             (match x with
              | JString s =>
                  if existsb (String.eqb k) Extractor.candidate_keys then [s] else []
              | _ => candidate_strings x
              end ++ go rest)%list
         end) fields
  | JArray items =>
      (fix go (l : list json) : list string :=
         match l with
         | [] => []
         | x :: rest => (candidate_strings x ++ go rest)%list
         end) items
  | _ => []
  end.

(** The object holds a string under one of [keys]. *)
Definition has_string_under (obj : dict) (keys : list string) : bool :=
  existsb (fun k => dict_contains obj k && is_str (dict_get obj k)) keys.

(** A response on which the two pollers decide alike: it is not a 200
    answer with a JSON body whose status is truthy and not a string. *)
Definition plain_status (resp : http_response) : bool :=
  negb (status_code resp =? 200)
  || match json_body resp with
     | Some run_json =>
         negb (truthy (Design.status_of run_json))
         || is_str (Design.status_of run_json)
     | None => true
     end.

(** The body of a response is [run_json], fetched with status 200. *)
Definition answers (resp : http_response) (run_json : json) : Prop :=
  status_code resp = 200 /\ json_body resp = Some run_json.

(** What the exit of a poller says about the transcript it read, for a
    poller that ends the poll on the bodies [terminal] accepts and whose
    sleep raises on a negative length when [sleep_raises] is set. *)
Definition exit_accounted (terminal : json -> bool) (sleep_raises : bool)
           (run_id : json) (max_wait_seconds : Z) (poll_interval : Q)
           (responses : list http_response) (exit : Poll.poll_exit) : Prop :=
  match exit with
  | Poll.Returns message (Poll.RunBody run_json) =>
      message = Extractor._extract_agent_message_from_run run_json
      /\ terminal run_json = true
      /\ exists resp, In resp responses /\ answers resp run_json
  | Poll.Returns message (Poll.TransportError code detail) =>
      message = None /\ code <> 200
      /\ exists resp, In resp responses /\ status_code resp = code /\ text resp = detail
  | Poll.Returns message (Poll.Timeout r m last_run) =>
      message = None /\ r = run_id /\ m = max_wait_seconds
      /\ terminal last_run = false
      /\ exists resp, In resp responses /\ answers resp last_run
  | Poll.Raises e =>
      (e = JSONDecodeError
       /\ exists resp, In resp responses /\ status_code resp = 200
                       /\ json_body resp = None)
      \/ (sleep_raises = true /\ e = ValueError /\ (poll_interval < 0)%Q)
  | Poll.AwaitsResponse => True
  end.

(** The sleeps of a poll that started at [elapsed]: each lasts one poll
    interval, there is at most one for each response read, and the last
    one began before the maximum wait was reached. *)
Definition sleeps_within (poll_interval : Q) (max_wait_seconds : Z) (elapsed : Q)
           (responses : list http_response) (slept : list Q) : Prop :=
  Forall (eq poll_interval) slept
  /\ (List.length slept <= List.length responses)%nat
  /\ forall k, List.length slept = S k ->
               (elapsed + inject_Z (Z.of_nat k) * poll_interval
                < inject_Z max_wait_seconds)%Q.

(** The elapsed wait and its next [n] increments are exact in binary64:
    [elapsed] and [poll_interval] are multiples [a / 2^k] and [b / 2^k]
    of one power of two, with [k <= 1074], [0 <= a], [0 <= b] and
    [a + n * b < 2^53].  Every partial sum [a + i * b] over [2^k] with
    [i <= n] is then a binary64 number, so the [elapsed +=
    poll_interval] of the source adds without rounding, as the exact
    sum of the model does.  The intervals 0.5 and 1.0 of the two front
    ends are of this kind; 0.1 is not. *)
Definition exact_steps (elapsed poll_interval : Q) (n : nat) : Prop :=
  exists (k : nat) (a b : Z),
    (k <= 1074)%nat /\ 0 <= a /\ 0 <= b
    /\ a + Z.of_nat n * b < 2 ^ 53
    /\ (elapsed == inject_Z a / inject_Z (2 ^ Z.of_nat k))%Q
    /\ (poll_interval == inject_Z b / inject_Z (2 ^ Z.of_nat k))%Q.

(** The posted body has no [thread_id] field. *)
Definition omits_thread (posted : dict) : Prop :=
  dict_contains posted "thread_id" = false.

(** [orchestrate_resp.get("thread_id") or orchestrate_resp.get("threadId")]
    and [resp_json.get("run_id") or resp_json.get("runId")], on the
    object the run-creation endpoint answered with. *)
Definition returned_thread_id (fields : dict) : json :=
  py_or (dict_get fields "thread_id") (dict_get fields "threadId").

Definition returned_run_id (fields : dict) : json :=
  py_or (dict_get fields "run_id") (dict_get fields "runId").

(** A run of the callback gets as far as a launch that is answered: the
    stripped message [msg] is not empty, the token provider returned
    [token], and the run-creation endpoint answered with a success
    status and the JSON object [fields]. *)
Definition launch_answered (cfg : App.config) (msg : string) (env : App.send_env)
           (token : json) (fields : dict) : Prop :=
  msg <> ""
  /\ App.get_bearer_token_sync (App.IAM_API_KEY cfg) (App.token_response env)
     = Ok token
  /\ is_success (status_code (App.launch_response env)) = true
  /\ json_body (App.launch_response env) = Some (JObject fields).

(** The run of the callback recorded one interaction, made of the
    stripped message [msg], the session's [thread_id], the returned run
    identifier and [message]; it cleared the text area, set no error and
    ran to its end. *)
Definition recorded (msg : string) (st : App.session_state) (env : App.send_env)
           (fields : dict) (message : option string) (run : App.callback_run)
  : Prop :=
  App.history (App.state_after run)
  = (App.history st
       ++ [{| App.timestamp := App.utcnow_isoformat env ++ "Z";
              App.interaction_thread_id := App.thread_id (App.state_after run);
              App.interaction_run_id := returned_run_id fields;
              App.user_message := msg;
              App.agent_message := message |}])%list
  /\ App.message_input (App.state_after run) = ""
  /\ App.last_error (App.state_after run) = App.last_error st
  /\ App.exit_of run = App.Finished.

(** A call of the chat endpoint gets as far as a launch that is
    answered: the token provider returned [token] and the run-creation
    endpoint answered 200 with the JSON object [fields]. *)
Definition chat_launch_answered (cfg : Relay.config) (env : Relay.chat_env)
           (token : json) (fields : dict) : Prop :=
  FastApi.get_bearer_token (Relay.IAM_API_KEY cfg) (Relay.token_response env)
  = Ok token
  /\ status_code (Relay.launch_response env) = 200
  /\ json_body (Relay.launch_response env) = Some (JObject fields).

End Observe.
Import Observe.

(** * Properties of the extractor *)

Module ExtractorFacts.
Import Extractor.

Lemma dict_get_in_values (obj : dict) (k : string) :
  dict_get obj k = JNull \/ In (dict_get obj k) (dict_values obj).
Proof.
  induction obj as [|[k' v] rest IH]; simpl.
  - now left.
  - destruct (k' =? k)%string.
    + right. now left.
    + destruct IH as [IH|IH]; [now left | right; now right].
Qed.

Lemma dict_get_contained (obj : dict) (k : string) :
  dict_contains obj k = true -> In (dict_get obj k) (dict_values obj).
Proof.
  induction obj as [|[k' v] rest IH]; simpl; [discriminate|].
  destruct (k' =? k)%string; intros H; [now left | right; auto].
Qed.

Lemma py_or_cases (a b : json) : py_or a b = a \/ py_or a b = b.
Proof. unfold py_or. destruct (truthy a); auto. Qed.

(** A container chosen by the [or] chain is a value of the dict. *)
Lemma assistant_content_child (obj : dict) :
  is_dict_or_list (assistant_content obj) = true ->
  child (assistant_content obj) (JObject obj).
Proof.
  intros H. constructor.
  assert (Hc : exists k, assistant_content obj = dict_get obj k).
  { unfold assistant_content.
    destruct (py_or_cases (py_or (dict_get obj "content") (dict_get obj "message"))
                          (dict_get obj "text")) as [E|E]; rewrite E; eauto.
    destruct (py_or_cases (dict_get obj "content") (dict_get obj "message"))
      as [E'|E']; rewrite E'; eauto. }
  destruct Hc as [k Hk]. rewrite Hk in *.
  destruct (dict_get_in_values obj k) as [E|E]; [rewrite E in H; discriminate | exact E].
Qed.

Lemma child_depth (v obj : json) : child v obj -> (json_depth v < json_depth obj)%nat.
Proof.
  intros [items H|fields H]; simpl.
  - induction items as [|x rest IH]; [contradiction|].
    destruct H as [->|H]; [lia | specialize (IH H); lia].
  - induction fields as [|[k x] rest IH]; [contradiction|].
    simpl in H. destruct H as [->|H]; [lia | specialize (IH H); lia].
Qed.

Section Locality.
Variables rec1 rec2 : json -> option string.

Lemma search_each_local (items : list json) :
  (forall v, In v items -> rec1 v = rec2 v) ->
  search_each rec1 items = search_each rec2 items.
Proof.
  induction items as [|x rest IH]; intros H; simpl; [reflexivity|].
  rewrite (H x) by now left.
  rewrite IH by (intros; apply H; now right). reflexivity.
Qed.

Lemma probe_keys_local (obj : dict) (keys : list string) (o1 o2 : option string) :
  (forall v, In v (dict_values obj) -> rec1 v = rec2 v) ->
  o1 = o2 ->
  probe_keys rec1 obj keys o1 = probe_keys rec2 obj keys o2.
Proof.
  intros H ->. induction keys as [|k rest IH]; simpl; [reflexivity|].
  destruct (dict_contains obj k) eqn:Hk; [|exact IH].
  pose proof (H _ (dict_get_contained obj k Hk)) as E.
  destruct (dict_get obj k); try reflexivity; rewrite E, IH; reflexivity.
Qed.

(** The body consults its recursive calls on children of its argument
    only. *)
Lemma find_message_body_local (obj : json) :
  (forall v, child v obj -> rec1 v = rec2 v) ->
  find_message_body rec1 obj = find_message_body rec2 obj.
Proof.
  intros H. destruct obj as [| | | | |items|fields]; simpl; try reflexivity.
  - apply search_each_local. intros v Hv. apply H. now constructor.
  - assert (Hrest : probe_then_search rec1 fields = probe_then_search rec2 fields).
    { unfold probe_then_search. apply probe_keys_local.
      - intros v Hv. apply H. now constructor.
      - apply search_each_local. intros v Hv. apply H. now constructor. }
    destruct (eq_str (dict_get fields "role") "assistant"); [|exact Hrest].
    pose proof (assistant_content_child fields) as Hc.
    destruct (assistant_content fields); try exact Hrest; try reflexivity;
      apply H; apply Hc; reflexivity.
Qed.
End Locality.

Lemma find_message_fuel_agree (n m : nat) (b1 b2 : json -> option string) (obj : json) :
  (json_depth obj < n)%nat -> (json_depth obj < m)%nat ->
  find_message_fuel b1 n obj = find_message_fuel b2 m obj.
Proof.
  revert m obj. induction n as [|n IH]; intros m obj Hn Hm; [lia|].
  destruct m as [|m]; [lia|]. simpl.
  apply find_message_body_local. intros v Hv.
  apply child_depth in Hv. apply IH; lia.
Qed.

(** With more unfoldings than the value is deep, no call reaches
    [bottom]: the result does not depend on it. *)
Lemma find_message_fuel_enough (bottom : json -> option string) (fuel : nat) (obj : json) :
  (json_depth obj < fuel)%nat ->
  find_message_fuel bottom fuel obj = find_message obj.
Proof.
  intros H. unfold find_message. apply find_message_fuel_agree; lia.
Qed.

(** [find_message] satisfies the recursive definition of the source. *)
Lemma find_message_unfold (obj : json) :
  find_message obj = find_message_body find_message obj.
Proof.
  unfold find_message at 1. simpl.
  apply find_message_body_local. intros v Hv.
  apply find_message_fuel_enough. now apply child_depth.
Qed.

Lemma child_well_founded : well_founded child.
Proof.
  apply (well_founded_lt_compat json json_depth). intros v obj. apply child_depth.
Qed.

(** Any function that satisfies the recursive definition is
    [find_message]. *)
Lemma find_message_unique (f : json -> option string) :
  (forall obj, f obj = find_message_body f obj) ->
  forall obj, f obj = find_message obj.
Proof.
  intros Hf obj. induction obj as [obj IH] using (well_founded_induction child_well_founded).
  rewrite Hf, find_message_unfold. apply find_message_body_local. exact IH.
Qed.

Lemma assistant_content_first_truthy (obj : dict) :
  assistant_content obj = first_truthy obj content_keys.
Proof.
  unfold assistant_content, py_or, content_keys, first_truthy.
  destruct (truthy (dict_get obj "content")) eqn:E1.
  - now rewrite E1.
  - destruct (truthy (dict_get obj "message")) eqn:E2; now rewrite ?E2.
Qed.

Lemma search_each_none (rec : json -> option string) (items : list json) :
  (forall v, In v items -> rec v = None) -> search_each rec items = None.
Proof.
  induction items as [|x rest IH]; intros H; simpl; [reflexivity|].
  rewrite (H x) by now left. simpl. apply IH. intros; apply H; now right.
Qed.

Lemma probe_keys_absent (rec : json -> option string) (obj : dict)
      (keys : list string) (otherwise : option string) :
  forallb (fun k => negb (dict_contains obj k)) keys = true ->
  probe_keys rec obj keys otherwise = otherwise.
Proof.
  induction keys as [|k rest IH]; simpl; [reflexivity|].
  intros H. apply andb_true_iff in H as [Hk Hrest].
  apply negb_true_iff in Hk. rewrite Hk. auto.
Qed.

Lemma no_trigger_child (v obj : json) :
  child v obj -> no_trigger obj = true -> no_trigger v = true.
Proof.
  intros [items H|fields H]; simpl.
  - induction items as [|x rest IH]; [contradiction|].
    intros Hall. apply andb_true_iff in Hall as [Hx Hrest].
    destruct H as [->|H]; auto.
  - intros Hall. apply andb_true_iff in Hall as [_ Hall].
    induction fields as [|[k x] rest IH]; [contradiction|].
    apply andb_true_iff in Hall as [Hx Hrest].
    simpl in H. destruct H as [<-|H]; auto.
Qed.

(** C5.  A JSON value that holds, at no depth, an object whose [role] is
    ["assistant"] or an object with one of the candidate keys [message],
    [messages], [content], [output], [text], [result] makes the extractor
    return [None]. *)
Theorem extract_none_without_trigger (run_json : json) :
  no_trigger run_json = true ->
  _extract_agent_message_from_run run_json = None.
Proof.
  unfold _extract_agent_message_from_run.
  induction run_json as [obj IH] using (well_founded_induction child_well_founded).
  intros Hobj. rewrite find_message_unfold.
  assert (Hsub : forall v, child v obj -> find_message v = None).
  { intros v Hv. apply IH; [exact Hv|]. eapply no_trigger_child; eauto. }
  destruct obj as [| | | | |items|fields]; simpl; try reflexivity.
  - apply search_each_none. intros v Hv. apply Hsub. now constructor.
  - simpl in Hobj. apply andb_true_iff in Hobj as [Hobj _].
    apply andb_true_iff in Hobj as [Hrole Hkeys].
    apply negb_true_iff in Hrole. rewrite Hrole.
    unfold probe_then_search. rewrite probe_keys_absent by exact Hkeys.
    apply search_each_none. intros v Hv. apply Hsub. now constructor.
Qed.

Lemma extract_none_without_trigger_witness :
  let run_json :=
    JObject [("id", JString "r1");
             ("steps", JArray [JObject [("name", JString "plan")]; JInt 3])] in
  no_trigger run_json = true /\ _extract_agent_message_from_run run_json = None.
Proof.
  split; [reflexivity|].
  apply (extract_none_without_trigger
           (JObject [("id", JString "r1");
                     ("steps", JArray [JObject [("name", JString "plan")]; JInt 3])])).
  reflexivity.
Defined.

(** C4, as the code has it.  In a JSON object whose [role] is
    ["assistant"], the extractor takes, among [content], [message] and
    [text] in that order, the first whose value is truthy (and the value
    of [text] when none is).  When that value is a string it is returned;
    when it is an object or an array the extractor returns what the
    recursion into it finds. *)
Theorem assistant_branch_first_truthy (fields : dict) :
  eq_str (dict_get fields "role") "assistant" = true ->
  match first_truthy fields content_keys with
  | JString s => find_message (JObject fields) = Some s
  | (JObject _ | JArray _) as content =>
      find_message (JObject fields) = find_message content
  | _ => True
  end.
Proof.
  intros Hrole. rewrite find_message_unfold. simpl find_message_body.
  rewrite Hrole, assistant_content_first_truthy.
  destruct (first_truthy fields content_keys); auto.
Qed.

Lemma assistant_branch_first_truthy_witness :
  let fields :=
    [("role", JString "assistant"); ("content", JString "");
     ("message", JArray [JObject [("text", JString "hi")]])] in
  eq_str (dict_get fields "role") "assistant" = true /\
  find_message (JObject fields)
  = find_message (JArray [JObject [("text", JString "hi")]]).
Proof.
  split; [reflexivity|].
  apply (assistant_branch_first_truthy
           [("role", JString "assistant"); ("content", JString "");
            ("message", JArray [JObject [("text", JString "hi")]])]).
  reflexivity.
Defined.

(** C4 as the document words it fails: [content] is present and is a
    string, yet the extractor returns the value of [message]. *)
Lemma assistant_first_present_refuted :
  let fields :=
    [("role", JString "assistant"); ("content", JString "");
     ("message", JString "hi")] in
  eq_str (dict_get fields "role") "assistant" = true /\
  first_present fields content_keys = Some (JString "") /\
  find_message (JObject fields) = Some "hi" /\
  find_message (JObject fields) <> Some "".
Proof.
  repeat split; try reflexivity. vm_compute. discriminate.
Qed.

(** C10, as the code has it.  In a JSON object whose [role] is
    ["assistant"], where none of [content], [message], [text] holds a
    truthy value and the value of [text] is neither a string nor an
    object nor an array (it is absent, [null], [false] or zero), the
    extractor goes on at that node: it probes the candidate keys in
    order and then searches every value of the object. *)
Theorem assistant_without_content_falls_through (fields : dict) :
  eq_str (dict_get fields "role") "assistant" = true ->
  truthy (dict_get fields "content") = false ->
  truthy (dict_get fields "message") = false ->
  truthy (dict_get fields "text") = false ->
  is_str (dict_get fields "text") = false ->
  is_dict_or_list (dict_get fields "text") = false ->
  find_message (JObject fields) = probe_then_search find_message fields.
Proof.
  intros Hrole Hc Hm Ht Hs Hd. rewrite find_message_unfold at 1.
  simpl find_message_body. rewrite Hrole.
  unfold assistant_content, py_or. rewrite Hc, Hm.
  destruct (dict_get fields "text"); try reflexivity; discriminate.
Qed.

Lemma assistant_without_content_falls_through_witness :
  let fields :=
    [("role", JString "assistant"); ("content", JNull);
     ("steps", JArray [JObject [("output", JString "hi")]])] in
  find_message (JObject fields) = probe_then_search find_message fields /\
  find_message (JObject fields) = Some "hi".
Proof.
  split; [|reflexivity].
  apply (assistant_without_content_falls_through
           [("role", JString "assistant"); ("content", JNull);
            ("steps", JArray [JObject [("output", JString "hi")]])]);
    reflexivity.
Defined.

(** C10 as stated fails: no truthy value under [content], [message] or
    [text], a message under [output], and the extractor stops at the
    empty [text]. *)
Lemma assistant_empty_text_refuted :
  let fields :=
    [("role", JString "assistant"); ("text", JString "");
     ("output", JString "hi")] in
  eq_str (dict_get fields "role") "assistant" = true /\
  truthy (dict_get fields "content") = false /\
  truthy (dict_get fields "message") = false /\
  truthy (dict_get fields "text") = false /\
  probe_then_search find_message fields = Some "hi" /\
  find_message (JObject fields) = Some "" /\
  find_message (JObject fields) <> probe_then_search find_message fields.
Proof.
  repeat split; try reflexivity. vm_compute. discriminate.
Qed.

(** C8.  The extractor terminates on every JSON value and is
    deterministic: the recursive calls of its body fall on children of
    the argument only, and the child relation is well founded; unfolding
    the recursion more times than the value is deep gives the result,
    whatever stands below the unfoldings, so two runs agree; that result
    satisfies the recursive definition and is the only function that
    does. *)
Theorem extractor_terminates_deterministic :
  (forall rec1 rec2 obj,
      (forall v, child v obj -> rec1 v = rec2 v) ->
      find_message_body rec1 obj = find_message_body rec2 obj)
  /\ well_founded child
  /\ (forall bottom fuel obj,
        (json_depth obj < fuel)%nat ->
        find_message_fuel bottom fuel obj = _extract_agent_message_from_run obj)
  /\ (forall b1 b2 n1 n2 obj,
        (json_depth obj < n1)%nat -> (json_depth obj < n2)%nat ->
        find_message_fuel b1 n1 obj = find_message_fuel b2 n2 obj)
  /\ (forall obj, find_message obj = find_message_body find_message obj)
  /\ (forall f,
        (forall obj, f obj = find_message_body f obj) ->
        forall obj, f obj = find_message obj).
Proof.
  split; [exact find_message_body_local|].
  split; [exact child_well_founded|].
  split; [exact find_message_fuel_enough|].
  split; [intros; now apply find_message_fuel_agree|].
  split; [exact find_message_unfold | exact find_message_unique].
Qed.

Lemma extractor_terminates_deterministic_witness :
  let run_json :=
    JObject [("run", JArray [JObject [("role", JString "assistant");
                                      ("content", JObject [("text", JString "hi")])]])] in
  (json_depth run_json < 5)%nat /\
  find_message_fuel (fun _ => Some "unreached") 5 run_json
  = _extract_agent_message_from_run run_json.
Proof.
  split; [vm_compute; lia|].
  apply (proj1 (proj2 (proj2 extractor_terminates_deterministic))).
  vm_compute; lia.
Defined.

End ExtractorFacts.

(** * Properties of the token provider and of the pollers *)

Module PollerFacts.
Import Extractor.

Lemma dict_get_absent (obj : dict) (k : string) :
  dict_contains obj k = false -> dict_get obj k = JNull.
Proof.
  induction obj as [|[k' v] rest IH]; simpl; [reflexivity|].
  destruct (k' =? k)%string; [discriminate | exact IH].
Qed.

(** What both token providers do with the answer of the identity
    endpoint: they raise on a status outside 200..299; on a 200 answer
    whose JSON object has no [access_token] field they raise nothing and
    hand back the [None] of the lookup. *)
Lemma token_error_on_status_none_on_missing_field
        (api_key : string) (resp : http_response) :
  (is_success (status_code resp) = false ->
   App.get_bearer_token_sync api_key resp
   = Raised (HTTPStatusError (status_code resp)) /\
   FastApi.get_bearer_token api_key resp
   = Raised (HTTPException (status_code resp) "Could not generate IAM token"))
  /\
  (forall body,
      status_code resp = 200 ->
      json_body resp = Some (JObject body) ->
      dict_contains body "access_token" = false ->
      App.get_bearer_token_sync api_key resp = Ok JNull /\
      FastApi.get_bearer_token api_key resp = Ok JNull).
Proof.
  split.
  - intros H. unfold App.get_bearer_token_sync, FastApi.get_bearer_token,
      raise_for_status. rewrite H. split; [reflexivity|].
    destruct (status_code resp =? 200) eqn:E; [|reflexivity].
    apply Z.eqb_eq in E. rewrite E in H. discriminate.
  - intros body Hs Hb Hk.
    unfold App.get_bearer_token_sync, FastApi.get_bearer_token,
      raise_for_status, resp_json.
    rewrite Hs, Hb. simpl. rewrite (dict_get_absent _ _ Hk). now split.
Qed.

Lemma token_error_on_status_none_on_missing_field_witness :
  (App.get_bearer_token_sync "k" (mk_response 401 "denied" None)
   = Raised (HTTPStatusError 401) /\
   FastApi.get_bearer_token "k" (mk_response 401 "denied" None)
   = Raised (HTTPException 401 "Could not generate IAM token"))
  /\
  (App.get_bearer_token_sync "k" (mk_response 200 "" (Some (JObject [("expires_in", JInt 3600)])))
   = Ok JNull /\
   FastApi.get_bearer_token "k" (mk_response 200 "" (Some (JObject [("expires_in", JInt 3600)])))
   = Ok JNull).
Proof.
  split.
  - apply (proj1 (token_error_on_status_none_on_missing_field
                    "k" (mk_response 401 "denied" None))).
    reflexivity.
  - apply (proj2 (token_error_on_status_none_on_missing_field
                    "k" (mk_response 200 "" (Some (JObject [("expires_in", JInt 3600)]))))
                 [("expires_in", JInt 3600)]); reflexivity.
Defined.

(** C1, on the input where the code departs from it.  A 200 answer
    whose JSON object has no [access_token] field must make the token
    provider fail.  Both providers, declared to return a [str], return
    [None] on it as if it were the token, and raise nothing. *)
Theorem token_missing_field_not_an_error :
  let resp := mk_response 200 "" (Some (JObject [("expires_in", JInt 3600)])) in
  is_success (status_code resp) = true /\
  dict_contains [("expires_in", JInt 3600)] "access_token" = false /\
  App.get_bearer_token_sync "k" resp = Ok JNull /\
  FastApi.get_bearer_token "k" resp = Ok JNull /\
  (forall e, App.get_bearer_token_sync "k" resp <> Raised e) /\
  (forall e, FastApi.get_bearer_token "k" resp <> Raised e).
Proof.
  repeat split; try reflexivity; intros e; vm_compute; discriminate.
Qed.

(** One iteration of each loop on a 200 response that carries JSON. *)
Lemma app_poll_step (run_id : json) (max_wait_seconds : Z) (poll_interval : Q)
      (raw : string) (run_json : json) (later : list http_response) (elapsed : Q) :
  App.poll_loop run_id max_wait_seconds poll_interval
                (mk_response 200 raw (Some run_json) :: later) elapsed
  = if App.is_terminal (App.run_status run_json) then
      ([], Returns (_extract_agent_message_from_run run_json) (RunBody run_json))
    else if deadline_reached elapsed max_wait_seconds then
      ([], Returns None (Timeout run_id max_wait_seconds run_json))
    else if negb (Qle_bool 0 poll_interval) then ([], Raises ValueError)
    else
      let (slept, exit) :=
        App.poll_loop run_id max_wait_seconds poll_interval later
                      (elapsed + poll_interval)%Q in
      (poll_interval :: slept, exit).
Proof. reflexivity. Qed.

Lemma relay_poll_step (run_id : json) (max_wait_seconds : Z) (poll_interval : Q)
      (raw : string) (run_json : json) (later : list http_response) (elapsed : Q) :
  FastApi.poll_loop run_id max_wait_seconds poll_interval
                    (mk_response 200 raw (Some run_json) :: later) elapsed
  = if FastApi.is_terminal (FastApi.run_status run_json) then
      ([], Returns (_extract_agent_message_from_run run_json) (RunBody run_json))
    else if deadline_reached elapsed max_wait_seconds then
      ([], Returns None (Timeout run_id max_wait_seconds run_json))
    else
      let (slept, exit) :=
        FastApi.poll_loop run_id max_wait_seconds poll_interval later
                          (elapsed + poll_interval)%Q in
      (poll_interval :: slept, exit).
Proof. reflexivity. Qed.

Lemma deadline_reached_true (elapsed : Q) (max_wait_seconds : Z) :
  (inject_Z max_wait_seconds <= elapsed)%Q ->
  deadline_reached elapsed max_wait_seconds = true.
Proof. intros H. unfold deadline_reached. now apply Qle_bool_iff. Qed.

Lemma deadline_reached_false (elapsed : Q) (max_wait_seconds : Z) :
  (elapsed < inject_Z max_wait_seconds)%Q ->
  deadline_reached elapsed max_wait_seconds = false.
Proof.
  intros H. unfold deadline_reached.
  destruct (Qle_bool (inject_Z max_wait_seconds) elapsed) eqn:E; [|reflexivity].
  apply Qle_bool_iff in E. exfalso. exact (Qlt_not_le _ _ H E).
Qed.

(** C7.  A 200 response with body [{"status": "Running"}], fetched when
    the elapsed wait has reached the maximum, ends both pollers at once:
    they return the timeout error, which carries that body as its
    [last_run], without another sleep and without reading a later
    response. *)
Theorem timeout_when_deadline_reached
        (run_id : json) (max_wait_seconds : Z) (poll_interval elapsed : Q)
        (raw : string) (later : list http_response) :
  (inject_Z max_wait_seconds <= elapsed)%Q ->
  let body := JObject [("status", JString "Running")] in
  let resp := mk_response 200 raw (Some body) in
  App.poll_loop run_id max_wait_seconds poll_interval (resp :: later) elapsed
  = ([], Returns None (Timeout run_id max_wait_seconds body))
  /\
  FastApi.poll_loop run_id max_wait_seconds poll_interval (resp :: later) elapsed
  = ([], Returns None (Timeout run_id max_wait_seconds body)).
Proof.
  intros H body resp. subst resp.
  rewrite app_poll_step, relay_poll_step.
  replace (App.is_terminal (App.run_status body)) with false by reflexivity.
  replace (FastApi.is_terminal (FastApi.run_status body)) with false by reflexivity.
  rewrite (deadline_reached_true _ _ H). now split.
Qed.

Lemma timeout_when_deadline_reached_witness :
  (inject_Z 5 <= 5)%Q /\
  (App.poll_loop (JString "r1") 5 (1 # 2)
     [mk_response 200 "" (Some (JObject [("status", JString "Running")]))] 5
   = ([], Returns None (Timeout (JString "r1") 5
                                (JObject [("status", JString "Running")])))
   /\
   FastApi.poll_loop (JString "r1") 5 (1 # 2)
     [mk_response 200 "" (Some (JObject [("status", JString "Running")]))] 5
   = ([], Returns None (Timeout (JString "r1") 5
                                (JObject [("status", JString "Running")])))).
Proof.
  split; [vm_compute; discriminate|].
  apply (timeout_when_deadline_reached (JString "r1") 5 (1 # 2) 5 "" []).
  vm_compute; discriminate.
Defined.

(** C6.  When successive fetches answer 200 with [{"status":
    "running"}], [{"status": "running"}], [{"status": "completed"}] and
    the maximum wait exceeds two poll intervals, both pollers sleep
    exactly twice, once after each of the first two responses, and
    return the extractor's result on the third body together with that
    body.  The poll interval is a sleep length, hence not negative
    ([time.sleep] raises on a negative one). *)
Theorem two_running_then_completed
        (run_id : json) (hdrs : headers) (max_wait_seconds : Z) (poll_interval : Q)
        (raw1 raw2 raw3 : string) (later : list http_response) :
  (0 <= poll_interval)%Q ->
  (2 * poll_interval < inject_Z max_wait_seconds)%Q ->
  let running := JObject [("status", JString "running")] in
  let completed := JObject [("status", JString "completed")] in
  let transcript :=
    mk_response 200 raw1 (Some running)
    :: mk_response 200 raw2 (Some running)
    :: mk_response 200 raw3 (Some completed) :: later in
  App.fetch_run_and_extract_message_sync
    run_id hdrs max_wait_seconds poll_interval transcript
  = ([poll_interval; poll_interval],
     Returns (_extract_agent_message_from_run completed) (RunBody completed))
  /\
  FastApi._fetch_run_and_extract_message
    run_id hdrs max_wait_seconds poll_interval transcript
  = ([poll_interval; poll_interval],
     Returns (_extract_agent_message_from_run completed) (RunBody completed)).
Proof.
  intros Hp Hmax running completed transcript. subst transcript.
  assert (H0 : deadline_reached 0 max_wait_seconds = false).
  { apply deadline_reached_false.
    apply Qle_lt_trans with (2 * poll_interval)%Q; [|exact Hmax].
    setoid_replace 0%Q with (2 * 0)%Q by reflexivity.
    apply Qmult_le_l; [reflexivity | exact Hp]. }
  assert (H1 : deadline_reached (0 + poll_interval) max_wait_seconds = false).
  { apply deadline_reached_false.
    apply Qle_lt_trans with (2 * poll_interval)%Q; [|exact Hmax].
    setoid_replace (2 * poll_interval)%Q with (poll_interval + poll_interval)%Q by ring.
    apply Qplus_le_l. exact Hp. }
  assert (Hs : negb (Qle_bool 0 poll_interval) = false).
  { apply negb_false_iff. now apply Qle_bool_iff. }
  unfold App.fetch_run_and_extract_message_sync,
    FastApi._fetch_run_and_extract_message.
  rewrite !app_poll_step, !relay_poll_step.
  replace (App.is_terminal (App.run_status running)) with false by reflexivity.
  replace (FastApi.is_terminal (FastApi.run_status running)) with false by reflexivity.
  replace (App.is_terminal (App.run_status completed)) with true by reflexivity.
  replace (FastApi.is_terminal (FastApi.run_status completed)) with true by reflexivity.
  rewrite H0, H1, Hs. now split.
Qed.

Lemma two_running_then_completed_witness :
  (0 <= 1 # 2)%Q /\ (2 * (1 # 2) < inject_Z 5)%Q /\
  App.fetch_run_and_extract_message_sync
    (JString "r1") (mk_headers (JString "t") None) 5 (1 # 2)
    [mk_response 200 "" (Some (JObject [("status", JString "running")]));
     mk_response 200 "" (Some (JObject [("status", JString "running")]));
     mk_response 200 "" (Some (JObject [("status", JString "completed")]))]
  = ([1 # 2; 1 # 2],
     Returns (_extract_agent_message_from_run
                (JObject [("status", JString "completed")]))
             (RunBody (JObject [("status", JString "completed")]))).
Proof.
  split; [vm_compute; discriminate|]. split; [reflexivity|].
  apply (two_running_then_completed
           (JString "r1") (mk_headers (JString "t") None) 5 (1 # 2) "" "" "" []).
  - vm_compute; discriminate.
  - reflexivity.
Defined.

Lemma lower_ascii_idempotent (c : ascii) : lower_ascii (lower_ascii c) = lower_ascii c.
Proof. destruct c as [[] [] [] [] [] [] [] []]; reflexivity. Qed.

Lemma lower_idempotent (s : string) : lower (lower s) = lower s.
Proof.
  induction s as [|c s IH]; simpl; [reflexivity|].
  now rewrite lower_ascii_idempotent, IH.
Qed.

Lemma lower_empty (s : string) : (lower s =? "")%string = (s =? "")%string.
Proof. destruct s; reflexivity. Qed.

(** app.py ends the poll on every status but the case-insensitive
    ["running"]. *)
Lemma app_terminal_unless_running (run_json : json) :
  App.is_terminal (App.run_status run_json) = negb (says_running (status_of run_json)).
Proof.
  unfold App.is_terminal, App.run_status, status_of.
  destruct run_json as [| | | | | |fields]; try reflexivity.
  destruct (status_field fields) as [|b|n|f|s|l|d] eqn:E; simpl;
    try reflexivity; try (now rewrite orb_true_r).
  destruct (lower s =? "running")%string eqn:R; [|now rewrite orb_true_r].
  apply String.eqb_eq in R. rewrite R. reflexivity.
Qed.

Lemma app_poll_terminal (run_id : json) (max_wait_seconds : Z) (poll_interval : Q)
      (raw : string) (run_json : json) (later : list http_response) (elapsed : Q) :
  says_running (status_of run_json) = false ->
  App.poll_loop run_id max_wait_seconds poll_interval
                (mk_response 200 raw (Some run_json) :: later) elapsed
  = ([], Returns (_extract_agent_message_from_run run_json) (RunBody run_json)).
Proof.
  intros H. rewrite app_poll_step, app_terminal_unless_running, H. reflexivity.
Qed.

Lemma app_poll_running (run_id : json) (max_wait_seconds : Z) (poll_interval : Q)
      (raw : string) (run_json : json) (later : list http_response) (elapsed : Q) :
  says_running (status_of run_json) = true ->
  App.poll_loop run_id max_wait_seconds poll_interval
                (mk_response 200 raw (Some run_json) :: later) elapsed
  = if deadline_reached elapsed max_wait_seconds then
      ([], Returns None (Timeout run_id max_wait_seconds run_json))
    else if negb (Qle_bool 0 poll_interval) then ([], Raises ValueError)
    else
      let (slept, exit) :=
        App.poll_loop run_id max_wait_seconds poll_interval later
                      (elapsed + poll_interval)%Q in
      (poll_interval :: slept, exit).
Proof.
  intros H. rewrite app_poll_step, app_terminal_unless_running, H. reflexivity.
Qed.

(** fastapi_app.py ends the poll on a falsy status and on a string that
    is not ["running"] up to case, and on nothing else. *)
Lemma relay_terminal_cases (run_json : json) :
  FastApi.is_terminal (FastApi.run_status run_json)
  = negb (truthy (status_of run_json))
    || (is_str (status_of run_json) && negb (says_running (status_of run_json))).
Proof.
  unfold FastApi.is_terminal, FastApi.run_status, status_of.
  destruct run_json as [| | | | | |fields]; try reflexivity.
  destruct (status_field fields); reflexivity.
Qed.

(** C2, on the input where the relay departs from it.  The status [1] is
    not the string ["running"]: app.py ends the poll at the first
    response and returns the extractor's result with the body, while
    fastapi_app.py sleeps and fetches again, and once the maximum wait
    is reached returns the timeout error. *)
Theorem relay_keeps_polling_on_non_string_status
        (run_id : json) (hdrs : headers) (raw : string) :
  let body := JObject [("status", JInt 1)] in
  let resp := mk_response 200 raw (Some body) in
  says_running (status_of body) = false
  /\ App.fetch_run_and_extract_message_sync run_id hdrs 2 1 [resp; resp; resp]
     = ([], Returns (_extract_agent_message_from_run body) (RunBody body))
  /\ FastApi._fetch_run_and_extract_message run_id hdrs 2 1 [resp]
     = ([1%Q], AwaitsResponse)
  /\ FastApi._fetch_run_and_extract_message run_id hdrs 2 1 [resp; resp; resp]
     = ([1%Q; 1%Q], Returns None (Timeout run_id 2 body)).
Proof. repeat split. Qed.

(** C3, as the code has it.  On a run body that is an object both
    pollers probe [status], then [state], then [run_status], and take
    the first whose value is truthy (the value of [run_status] when none
    is).  app.py lowers that value when it is a string; fastapi_app.py
    keeps it and lowers it in the comparison, so its decision is the one
    it would take on the lowered value. *)
Theorem status_probe_first_truthy (fields : dict) :
  App.run_status (JObject fields) = lower_if_str (first_truthy fields status_keys)
  /\ FastApi.run_status (JObject fields) = first_truthy fields status_keys
  /\ FastApi.is_terminal (FastApi.run_status (JObject fields))
     = FastApi.is_terminal (lower_if_str (first_truthy fields status_keys)).
Proof.
  assert (E : status_field fields = first_truthy fields status_keys).
  { unfold status_field, py_or, status_keys, first_truthy.
    destruct (truthy (dict_get fields "status")) eqn:E1.
    - now rewrite E1.
    - destruct (truthy (dict_get fields "state")) eqn:E2; now rewrite ?E2. }
  unfold App.run_status, FastApi.run_status. rewrite E.
  split; [|split]; try reflexivity.
  - destruct (first_truthy fields status_keys); reflexivity.
  - destruct (first_truthy fields status_keys); try reflexivity.
    unfold FastApi.is_terminal, lower_if_str, truthy.
    now rewrite lower_idempotent, lower_empty.
Qed.

(** C3 as the document words it fails: [status] is present, and the
    pollers take the value of [state]; they go on polling where the
    first present field would end the poll. *)
Lemma status_first_present_refuted :
  let fields := [("status", JString ""); ("state", JString "Running")] in
  first_present fields status_keys = Some (JString "") /\
  App.run_status (JObject fields) = JString "running" /\
  FastApi.run_status (JObject fields) = JString "Running" /\
  App.run_status (JObject fields) <> lower_if_str (JString "") /\
  App.is_terminal (lower_if_str (JString "")) = true /\
  App.is_terminal (App.run_status (JObject fields)) = false /\
  FastApi.is_terminal (FastApi.run_status (JObject fields)) = false.
Proof.
  repeat split; try reflexivity. vm_compute. discriminate.
Qed.

End PollerFacts.

(** * The thread identifier of a session *)

Module SessionFacts.
Import App.

Lemma launch_payload_carries (message agent_id : string) (t : json) :
  truthy t = true -> carries_thread t (launch_payload message agent_id t).
Proof.
  intros H. unfold carries_thread, launch_payload. rewrite H. now split.
Qed.

(** Without a thread identifier in the session the body has no
    [thread_id] field. *)
Lemma launch_payload_omits (message agent_id : string) (t : json) :
  truthy t = false ->
  dict_contains (launch_payload message agent_id t) "thread_id" = false.
Proof. intros H. unfold launch_payload. now rewrite H. Qed.

Section Conversation.
Variable strip : string -> string.
Variable cfg : config.

Lemma callback_keeps_thread (st : session_state) (env : send_env) :
  truthy (thread_id st) = true ->
  thread_id (state_after (_send_callback strip cfg st env)) = thread_id st
  /\ initialized (state_after (_send_callback strip cfg st env)) = initialized st
  /\ Forall (carries_thread (thread_id st))
            (launches (_send_callback strip cfg st env)).
Proof.
  intros Ht. unfold _send_callback.
  destruct (strip (message_input st) =? "")%string; [simpl; auto|].
  destruct (get_bearer_token_sync (IAM_API_KEY cfg) (token_response env))
    as [token|e]; [|simpl; auto].
  unfold start_orchestrate_run_sync.
  pose proof (launch_payload_carries (strip (message_input st))
                                     (DEFAULT_AGENT_ID cfg) _ Ht) as Hp.
  destruct (raise_for_status (launch_response env)); [|simpl; auto].
  destruct (resp_json (launch_response env)) as [body|e]; [|simpl; auto].
  destruct body as [| | | | | |fields]; try (simpl; auto; fail).
  cbv beta iota zeta. rewrite Ht, andb_false_r.
  destruct (truthy (py_or (dict_get fields "run_id") (dict_get fields "runId")));
    [|simpl; auto].
  destruct (snd (fetch_run_and_extract_message_sync _ _ _ _ _)); simpl; auto.
Qed.

Lemma script_run_keeps_thread (st : session_state) :
  initialized st = true ->
  thread_id (script_run st) = thread_id st /\ initialized (script_run st) = true.
Proof.
  intros H. unfold script_run. rewrite H.
  destruct (last_error st =? "")%string; simpl; auto.
Qed.

(** C9.  Once the session holds a non-empty [thread_id], no send of
    the conversation overwrites it, whatever the run responses return:
    the session ends with the same [thread_id], and every later launch
    posts a body that carries it. *)
Theorem adopted_thread_id_is_kept (st : session_state) (events : list send_event) :
  initialized st = true ->
  truthy (thread_id st) = true ->
  thread_id (fst (conversation strip cfg st events)) = thread_id st
  /\ Forall (carries_thread (thread_id st))
            (snd (conversation strip cfg st events)).
Proof.
  revert st. induction events as [|ev later IH]; intros st Hi Ht; simpl.
  - split; [reflexivity | constructor].
  - set (st0 := set_message_input st (typed ev)).
    assert (Ht0 : truthy (thread_id st0) = true) by exact Ht.
    destruct (callback_keeps_thread st0 (world ev) Ht0) as (Hk & Hin & Hl).
    change (thread_id st0) with (thread_id st) in Hk, Hl.
    change (initialized st0) with (initialized st) in Hin.
    rewrite Hi in Hin.
    destruct (script_run_keeps_thread _ Hin) as (Hs & His).
    assert (Hgo :
      thread_id (fst (let (st', posted) :=
                        conversation strip cfg
                          (script_run (state_after (_send_callback strip cfg st0 (world ev))))
                          later in
                      (st', (launches (_send_callback strip cfg st0 (world ev)) ++ posted)%list))) = thread_id st
      /\ Forall (carries_thread (thread_id st))
           (snd (let (st', posted) :=
                        conversation strip cfg
                          (script_run (state_after (_send_callback strip cfg st0 (world ev))))
                          later in
                      (st', (launches (_send_callback strip cfg st0 (world ev)) ++ posted)%list)))).
    { specialize (IH _ His). rewrite Hs, Hk in IH. specialize (IH Ht).
      destruct (conversation strip cfg _ later) as [st' posted]. simpl in *.
      destruct IH as [IH1 IH2]. split; [exact IH1|].
      apply Forall_app; split; assumption. }
    destruct (exit_of (_send_callback strip cfg st0 (world ev)));
      try exact Hgo.
    simpl. split; assumption.
Qed.

End Conversation.

Lemma adopted_thread_id_is_kept_witness :
  let st := mk_session [] (JString "t1") "" "" true in
  let answer :=
    JObject [("thread_id", JString "t2"); ("run_id", JString "r2")] in
  let ev :=
    mk_send_event "hello"
      (mk_send_env
         (mk_response 200 "" (Some (JObject [("access_token", JString "tok")])))
         (mk_response 200 "" (Some answer))
         [mk_response 200 "" (Some (JObject [("status", JString "completed");
                                             ("output", JString "hi")]))]
         "2024-01-01T00:00:00") in
  initialized st = true /\ truthy (thread_id st) = true /\
  thread_id (fst (conversation (fun s => s) (mk_config "u" "k" "a") st [ev; ev]))
  = JString "t1" /\
  Forall (carries_thread (JString "t1"))
         (snd (conversation (fun s => s) (mk_config "u" "k" "a") st [ev; ev])).
Proof.
  split; [reflexivity|]. split; [reflexivity|].
  apply (adopted_thread_id_is_kept
           (fun s => s) (mk_config "u" "k" "a")
           (mk_session [] (JString "t1") "" "" true)); reflexivity.
Defined.

End SessionFacts.

(** * Further properties of the extractor *)

Module ExtractorMore.
Import Extractor ExtractorFacts.

Lemma dict_get_binding (obj : dict) (k : string) :
  dict_get obj k <> JNull -> In (k, dict_get obj k) obj.
Proof.
  induction obj as [|[k' v] rest IH]; simpl; [congruence|].
  destruct (k' =? k)%string eqn:E; intros H.
  - apply String.eqb_eq in E. subst. now left.
  - right. auto.
Qed.

Lemma dict_contains_binding (obj : dict) (k : string) :
  dict_contains obj k = true -> In (k, dict_get obj k) obj.
Proof.
  induction obj as [|[k' v] rest IH]; simpl; [discriminate|].
  destruct (k' =? k)%string eqn:E; intros H.
  - apply String.eqb_eq in E. subst. now left.
  - right. auto.
Qed.

Lemma binding_child (obj : dict) (k : string) (v : json) :
  In (k, v) obj -> child v (JObject obj).
Proof.
  intros H. constructor. unfold dict_values.
  change v with (snd (k, v)). now apply in_map.
Qed.

Lemma assistant_content_key (obj : dict) :
  exists k, In k content_keys /\ assistant_content obj = dict_get obj k.
Proof.
  unfold assistant_content, content_keys.
  destruct (py_or_cases (py_or (dict_get obj "content") (dict_get obj "message"))
                        (dict_get obj "text")) as [E|E]; rewrite E.
  - destruct (py_or_cases (dict_get obj "content") (dict_get obj "message"))
      as [E'|E']; rewrite E'; eexists; split; try reflexivity; simpl; auto.
  - eexists; split; try reflexivity; simpl; auto.
Qed.

Lemma content_keys_candidates (k : string) :
  In k content_keys -> In k candidate_keys.
Proof.
  unfold content_keys, candidate_keys. simpl.
  intros [<-|[<-|[<-|[]]]]; auto 10.
Qed.

Lemma candidate_key_test (k : string) :
  In k candidate_keys -> existsb (String.eqb k) candidate_keys = true.
Proof.
  intros H. apply existsb_exists. exists k. split; [exact H | apply String.eqb_refl].
Qed.

Lemma candidate_strings_item (s : string) (v : json) (items : list json) :
  In v items -> In s (candidate_strings v) -> In s (candidate_strings (JArray items)).
Proof.
  intros Hv Hs. simpl. induction items as [|x rest IH]; [contradiction|].
  apply in_or_app. destruct Hv as [->|Hv]; [now left | right; auto].
Qed.

Lemma candidate_strings_field (s k : string) (v : json) (fields : dict) :
  In (k, v) fields -> In s (candidate_strings v) ->
  In s (candidate_strings (JObject fields)).
Proof.
  intros Hv Hs. simpl. induction fields as [|[k' x] rest IH]; [contradiction|].
  apply in_or_app. destruct Hv as [E|Hv]; [|right; auto].
  injection E as -> ->. left. destruct v; try exact Hs. contradiction.
Qed.

Lemma candidate_strings_here (s k : string) (fields : dict) :
  In k candidate_keys -> In (k, JString s) fields ->
  In s (candidate_strings (JObject fields)).
Proof.
  intros Hk Hv. pose proof (candidate_key_test _ Hk) as T.
  simpl in T |- *. induction fields as [|[k' x] rest IH]; [contradiction|].
  apply in_or_app. destruct Hv as [E|Hv]; [|right; auto].
  injection E as -> ->. left. rewrite T. now left.
Qed.

Lemma value_binding (obj : dict) (v : json) :
  In v (dict_values obj) -> exists k, In (k, v) obj.
Proof.
  unfold dict_values. intros H. apply in_map_iff in H as [[k x] [E H]].
  simpl in E. subst. eauto.
Qed.

Lemma found_some (candidate : option string) :
  found candidate = true -> exists s, candidate = Some s /\ s <> "".
Proof.
  destruct candidate as [s|]; [|discriminate]. simpl. intros H.
  exists s. split; [reflexivity|]. intros ->. discriminate.
Qed.

Section Loops.
Variable rec : json -> option string.

Lemma search_each_some (items : list json) (s : string) :
  search_each rec items = Some s ->
  exists v, In v items /\ rec v = Some s /\ s <> "".
Proof.
  induction items as [|x rest IH]; simpl; [discriminate|].
  destruct (found (rec x)) eqn:F.
  - intros E. apply found_some in F as (t & Ht & Hne).
    exists x. rewrite Ht in E. injection E as <-. auto.
  - intros E. destruct (IH E) as (v & Hv & Hr). exists v. auto.
Qed.

Lemma probe_keys_some (obj : dict) (keys : list string)
      (otherwise : option string) (s : string) :
  probe_keys rec obj keys otherwise = Some s ->
  (exists k, In k keys /\ In (k, JString s) obj)
  \/ (exists k, In k keys /\ In (k, dict_get obj k) obj /\ rec (dict_get obj k) = Some s)
  \/ otherwise = Some s.
Proof.
  induction keys as [|k rest IH]; simpl; [auto|].
  assert (Hrest : probe_keys rec obj rest otherwise = Some s ->
                  (exists k0, (k = k0 \/ In k0 rest) /\ In (k0, JString s) obj)
                  \/ (exists k0, (k = k0 \/ In k0 rest) /\ In (k0, dict_get obj k0) obj
                                 /\ rec (dict_get obj k0) = Some s)
                  \/ otherwise = Some s).
  { intros E. destruct (IH E) as [(k0 & H1 & H2)|[(k0 & H1 & H2)|H]]; eauto 6. }
  destruct (dict_contains obj k) eqn:Hk; [|exact Hrest].
  pose proof (dict_contains_binding obj k Hk) as Hb.
  assert (Hrec : (if found (rec (dict_get obj k)) then rec (dict_get obj k)
                  else probe_keys rec obj rest otherwise) = Some s ->
                 (exists k0, (k = k0 \/ In k0 rest) /\ In (k0, JString s) obj)
                 \/ (exists k0, (k = k0 \/ In k0 rest) /\ In (k0, dict_get obj k0) obj
                                /\ rec (dict_get obj k0) = Some s)
                 \/ otherwise = Some s).
  { destruct (found (rec (dict_get obj k))); [|exact Hrest].
    intros E. right. left. exists k. auto. }
  destruct (dict_get obj k) eqn:Hv; try exact Hrec.
  intros E. injection E as ->. left. exists k. auto.
Qed.

End Loops.

(** X1.  Every string the extractor returns is held by the input under
    one of the six candidate keys, at some depth: it returns no string
    of its own making, no element of an array, and no value of a field
    with another name. *)
Theorem extracted_string_is_a_candidate (run_json : json) (s : string) :
  _extract_agent_message_from_run run_json = Some s ->
  In s (candidate_strings run_json).
Proof.
  unfold _extract_agent_message_from_run. revert s.
  induction run_json as [obj IH] using (well_founded_induction child_well_founded).
  intros s. rewrite find_message_unfold.
  destruct obj as [| | | | |items|fields]; simpl find_message_body; try discriminate.
  - intros E. apply search_each_some in E as (v & Hv & Hr & _).
    apply (candidate_strings_item s v); [exact Hv|].
    apply IH; [now constructor | exact Hr].
  - assert (Hrest : probe_then_search find_message fields = Some s ->
                    In s (candidate_strings (JObject fields))).
    { unfold probe_then_search. intros E.
      apply probe_keys_some in E as [(k & Hk & Hb)|[(k & Hk & Hb & Hr)|E]].
      - now apply (candidate_strings_here s k).
      - apply (candidate_strings_field s k _ fields Hb).
        apply IH; [now apply (binding_child fields k) | exact Hr].
      - apply search_each_some in E as (v & Hv & Hr & _).
        destruct (value_binding _ _ Hv) as [k Hb].
        apply (candidate_strings_field s k v fields Hb).
        apply IH; [now apply (binding_child fields k) | exact Hr]. }
    destruct (eq_str (dict_get fields "role") "assistant"); [|exact Hrest].
    destruct (assistant_content_key fields) as (k & Hk & Ek).
    apply content_keys_candidates in Hk.
    destruct (assistant_content fields) eqn:Ec; try exact Hrest.
    + intros E. injection E as ->.
      apply (candidate_strings_here s k); [exact Hk|].
      rewrite Ek. apply dict_get_binding. rewrite <- Ek. discriminate.
    + intros E.
      assert (Hb : In (k, JArray items) fields).
      { rewrite Ek. apply dict_get_binding. rewrite <- Ek. discriminate. }
      apply (candidate_strings_field s k _ fields Hb).
      apply IH; [now apply (binding_child fields k) | exact E].
    + intros E.
      assert (Hb : In (k, JObject fields0) fields).
      { rewrite Ek. apply dict_get_binding. rewrite <- Ek. discriminate. }
      apply (candidate_strings_field s k _ fields Hb).
      apply IH; [now apply (binding_child fields k) | exact E].
Qed.

Lemma extracted_string_is_a_candidate_witness :
  let run_json :=
    JObject [("id", JString "r1");
             ("steps", JArray [JString "skipped";
                               JObject [("output", JObject [("text", JString "hi")])]])] in
  _extract_agent_message_from_run run_json = Some "hi" /\
  In "hi" (candidate_strings run_json).
Proof.
  split; [reflexivity|].
  apply (extracted_string_is_a_candidate
           (JObject [("id", JString "r1");
                     ("steps", JArray [JString "skipped";
                                       JObject [("output", JObject [("text", JString "hi")])]])])).
  reflexivity.
Defined.

Lemma probe_keys_finds (rec : json -> option string) (obj : dict)
      (keys : list string) (otherwise : option string) :
  has_string_under obj keys = true ->
  exists s, probe_keys rec obj keys otherwise = Some s.
Proof.
  unfold has_string_under.
  induction keys as [|k rest IH]; simpl; [discriminate|].
  destruct (dict_contains obj k) eqn:Hk; simpl; [|exact IH].
  destruct (dict_get obj k) eqn:Hv; simpl; eauto;
    intros H; destruct (found (rec _)) eqn:F; auto;
    apply found_some in F as (t & Ht & _); eauto.
Qed.

(** X2.  An object that is not tagged [role = "assistant"] and holds a
    string under one of the candidate keys always yields a message: the
    extractor does not return [None] on it. *)
Theorem string_under_candidate_key_is_found (fields : dict) :
  eq_str (dict_get fields "role") "assistant" = false ->
  has_string_under fields candidate_keys = true ->
  exists s, _extract_agent_message_from_run (JObject fields) = Some s.
Proof.
  intros Hrole Hs. unfold _extract_agent_message_from_run.
  rewrite find_message_unfold. simpl find_message_body. rewrite Hrole.
  unfold probe_then_search. now apply probe_keys_finds.
Qed.

Lemma string_under_candidate_key_is_found_witness :
  let fields :=
    [("role", JString "tool"); ("messages", JArray []);
     ("result", JString "done")] in
  exists s, _extract_agent_message_from_run (JObject fields) = Some s.
Proof.
  apply (string_under_candidate_key_is_found
           [("role", JString "tool"); ("messages", JArray []);
            ("result", JString "done")]); reflexivity.
Defined.

Lemma search_each_first (rec : json -> option string) (items : list json) :
  (search_each rec items = None
   /\ Forall (fun v => found (rec v) = false) items)
  \/ exists pre v post,
      items = (pre ++ v :: post)%list
      /\ Forall (fun u => found (rec u) = false) pre
      /\ found (rec v) = true
      /\ search_each rec items = rec v.
Proof.
  induction items as [|x rest IH]; simpl.
  - left. split; [reflexivity | constructor].
  - destruct (found (rec x)) eqn:F.
    + right. exists [], x, rest.
      split; [reflexivity|]. split; [constructor|]. split; [exact F | reflexivity].
    + destruct IH as [[E H]|(pre & v & post & E & Hpre & Hv & Hr)].
      * left. split; [exact E | now constructor].
      * right. exists (x :: pre), v, post.
        split; [now rewrite E|]. split; [now constructor|].
        split; [exact Hv | exact Hr].
Qed.

(** X3.  On an array the extractor returns what it finds in the first
    element whose own extraction is a non-empty string, and [None] when
    no element has one; it never returns the empty string for an
    array. *)
Theorem array_yields_first_found (items : list json) :
  (_extract_agent_message_from_run (JArray items) = None
   /\ Forall (fun v => found (_extract_agent_message_from_run v) = false) items)
  \/ exists pre v post,
      items = (pre ++ v :: post)%list
      /\ Forall (fun u => found (_extract_agent_message_from_run u) = false) pre
      /\ found (_extract_agent_message_from_run v) = true
      /\ _extract_agent_message_from_run (JArray items)
         = _extract_agent_message_from_run v.
Proof.
  unfold _extract_agent_message_from_run. rewrite find_message_unfold.
  simpl find_message_body. apply search_each_first.
Qed.

(** X4.  In an object tagged [role = "assistant"] a non-empty string
    under [content] is the result, whatever else the object holds: the
    candidate keys and the other values are not looked at. *)
Theorem assistant_string_content_wins (fields : dict) (s : string) :
  eq_str (dict_get fields "role") "assistant" = true ->
  dict_get fields "content" = JString s ->
  s <> "" ->
  _extract_agent_message_from_run (JObject fields) = Some s.
Proof.
  intros Hrole Hc Hs. unfold _extract_agent_message_from_run.
  rewrite find_message_unfold. simpl find_message_body. rewrite Hrole.
  assert (T : truthy (JString s) = true).
  { simpl. destruct (s =? "")%string eqn:E; [|reflexivity].
    apply String.eqb_eq in E. contradiction. }
  unfold assistant_content, py_or. rewrite Hc. rewrite !T. reflexivity.
Qed.

Lemma assistant_string_content_wins_witness :
  let fields :=
    [("message", JString "earlier key"); ("role", JString "assistant");
     ("content", JString "hello")] in
  _extract_agent_message_from_run (JObject fields) = Some "hello".
Proof.
  apply (assistant_string_content_wins
           [("message", JString "earlier key"); ("role", JString "assistant");
            ("content", JString "hello")]); [reflexivity | reflexivity | discriminate].
Defined.

End ExtractorMore.

(** * Further properties of the pollers and of the token providers *)

Module PollerMore.
Import Extractor PollerFacts.

Section Loops.
Variable run_id : json.
Variable max_wait_seconds : Z.
Variable poll_interval : Q.

Lemma app_loop_cons (resp : http_response) (later : list http_response) (elapsed : Q) :
  App.poll_loop run_id max_wait_seconds poll_interval (resp :: later) elapsed
  = if negb (status_code resp =? 200) then
      ([], Returns None (TransportError (status_code resp) (text resp)))
    else
      match json_body resp with
      | None => ([], Raises JSONDecodeError)
      | Some run_json =>
          if App.is_terminal (App.run_status run_json) then
            ([], Returns (_extract_agent_message_from_run run_json) (RunBody run_json))
          else if deadline_reached elapsed max_wait_seconds then
            ([], Returns None (Timeout run_id max_wait_seconds run_json))
          else if negb (Qle_bool 0 poll_interval) then ([], Raises ValueError)
          else
            (poll_interval
               :: fst (App.poll_loop run_id max_wait_seconds poll_interval later
                                     (elapsed + poll_interval)%Q),
             snd (App.poll_loop run_id max_wait_seconds poll_interval later
                                (elapsed + poll_interval)%Q))
      end.
Proof.
  simpl. unfold resp_json.
  destruct (negb (status_code resp =? 200)); [reflexivity|].
  destruct (json_body resp) as [run_json|]; [|reflexivity].
  destruct (App.is_terminal (App.run_status run_json)); [reflexivity|].
  destruct (deadline_reached elapsed max_wait_seconds); [reflexivity|].
  destruct (negb (Qle_bool 0 poll_interval)); [reflexivity|].
  now destruct (App.poll_loop run_id max_wait_seconds poll_interval later _).
Qed.

Lemma relay_loop_cons (resp : http_response) (later : list http_response) (elapsed : Q) :
  FastApi.poll_loop run_id max_wait_seconds poll_interval (resp :: later) elapsed
  = if negb (status_code resp =? 200) then
      ([], Returns None (TransportError (status_code resp) (text resp)))
    else
      match json_body resp with
      | None => ([], Raises JSONDecodeError)
      | Some run_json =>
          if FastApi.is_terminal (FastApi.run_status run_json) then
            ([], Returns (_extract_agent_message_from_run run_json) (RunBody run_json))
          else if deadline_reached elapsed max_wait_seconds then
            ([], Returns None (Timeout run_id max_wait_seconds run_json))
          else
            (poll_interval
               :: fst (FastApi.poll_loop run_id max_wait_seconds poll_interval later
                                         (elapsed + poll_interval)%Q),
             snd (FastApi.poll_loop run_id max_wait_seconds poll_interval later
                                    (elapsed + poll_interval)%Q))
      end.
Proof.
  simpl. unfold resp_json.
  destruct (negb (status_code resp =? 200)); [reflexivity|].
  destruct (json_body resp) as [run_json|]; [|reflexivity].
  destruct (FastApi.is_terminal (FastApi.run_status run_json)); [reflexivity|].
  destruct (deadline_reached elapsed max_wait_seconds); [reflexivity|].
  now destruct (FastApi.poll_loop run_id max_wait_seconds poll_interval later _).
Qed.

End Loops.

(** Splits one iteration of a poll loop into the cases of its tests. *)
Ltac loop_cases :=
  rewrite ?app_loop_cons, ?relay_loop_cons;
  repeat match goal with
  | |- context [if negb (status_code ?r =? 200) then _ else _] =>
      destruct (negb (status_code r =? 200)) eqn:?
  | |- context [match json_body ?r with _ => _ end] =>
      destruct (json_body r) eqn:?
  | |- context [if App.is_terminal ?x then _ else _] =>
      destruct (App.is_terminal x) eqn:?
  | |- context [if FastApi.is_terminal ?x then _ else _] =>
      destruct (FastApi.is_terminal x) eqn:?
  | |- context [if deadline_reached ?e ?m then _ else _] =>
      destruct (deadline_reached e m) eqn:?
  | |- context [if negb (Qle_bool 0 ?p) then _ else _] =>
      destruct (negb (Qle_bool 0 p)) eqn:?
  end.

(** X5.  A poller that has ended reads no further: once a transcript
    makes a poller return or raise, the same call on any longer
    transcript with that prefix sleeps as often and ends the same
    way. *)
Theorem poller_ignores_later_responses
        (run_id : json) (max_wait_seconds : Z) (poll_interval : Q)
        (responses more : list http_response) (elapsed : Q) :
  (snd (App.poll_loop run_id max_wait_seconds poll_interval responses elapsed)
   <> AwaitsResponse ->
   App.poll_loop run_id max_wait_seconds poll_interval (responses ++ more) elapsed
   = App.poll_loop run_id max_wait_seconds poll_interval responses elapsed)
  /\
  (snd (FastApi.poll_loop run_id max_wait_seconds poll_interval responses elapsed)
   <> AwaitsResponse ->
   FastApi.poll_loop run_id max_wait_seconds poll_interval (responses ++ more) elapsed
   = FastApi.poll_loop run_id max_wait_seconds poll_interval responses elapsed).
Proof.
  revert elapsed. induction responses as [|resp later IH]; intros elapsed.
  - split; intros H; now contradiction H.
  - destruct (IH (elapsed + poll_interval)%Q) as [IHa IHr].
    rewrite <- app_comm_cons.
    split; loop_cases; intros H; try reflexivity; simpl in H.
    all: first [ now rewrite (IHa H) | now rewrite (IHr H) ].
Qed.

Lemma poller_ignores_later_responses_witness :
  let running := mk_response 200 "" (Some (JObject [("status", JString "running")])) in
  let failed := mk_response 503 "unavailable" None in
  App.poll_loop (JString "r1") 5 (1 # 2) ([running; failed] ++ [running; running]) 0
  = App.poll_loop (JString "r1") 5 (1 # 2) [running; failed] 0.
Proof.
  apply (proj1 (poller_ignores_later_responses
                  (JString "r1") 5 (1 # 2)
                  [mk_response 200 "" (Some (JObject [("status", JString "running")]));
                   mk_response 503 "unavailable" None]
                  [mk_response 200 "" (Some (JObject [("status", JString "running")]));
                   mk_response 200 "" (Some (JObject [("status", JString "running")]))]
                  0)).
  vm_compute. discriminate.
Defined.

Lemma deadline_reached_iff (elapsed : Q) (max_wait_seconds : Z) :
  deadline_reached elapsed max_wait_seconds = false <->
  (elapsed < inject_Z max_wait_seconds)%Q.
Proof.
  split; [|apply deadline_reached_false].
  intros H. apply Qnot_le_lt. intros L.
  rewrite (deadline_reached_true _ _ L) in H. discriminate.
Qed.

Lemma inject_succ (n : nat) :
  (inject_Z (Z.of_nat (S n)) == inject_Z (Z.of_nat n) + 1)%Q.
Proof. rewrite Nat2Z.inj_succ. unfold Z.succ. now rewrite inject_Z_plus. Qed.

Lemma poll_loops_end
        (run_id : json) (max_wait_seconds : Z) (poll_interval : Q)
        (responses : list http_response) (elapsed : Q) :
  responses <> [] ->
  (inject_Z max_wait_seconds
   <= elapsed + (inject_Z (Z.of_nat (List.length responses)) - 1) * poll_interval)%Q ->
  snd (App.poll_loop run_id max_wait_seconds poll_interval responses elapsed)
  <> AwaitsResponse
  /\
  snd (FastApi.poll_loop run_id max_wait_seconds poll_interval responses elapsed)
  <> AwaitsResponse.
Proof.
  revert elapsed. induction responses as [|resp later IH]; intros elapsed Hne Hmax;
    [now contradiction Hne|].
  pose proof (inject_succ (List.length later)) as Hs.
  change (List.length (resp :: later)) with (S (List.length later)) in Hmax.
  rewrite Hs in Hmax. clear Hs.
  assert (Hnext : deadline_reached elapsed max_wait_seconds = false ->
                  later <> []
                  /\ (inject_Z max_wait_seconds
                      <= (elapsed + poll_interval)
                         + (inject_Z (Z.of_nat (List.length later)) - 1) * poll_interval)%Q).
  { intros Hd. apply deadline_reached_iff in Hd. split.
    - intros ->. change (inject_Z (Z.of_nat (List.length (@nil http_response))))
        with 0%Q in Hmax. lra.
    - lra. }
  split; loop_cases; simpl; try discriminate.
  all: destruct (Hnext eq_refl) as [Hl Hm];
    destruct (IH (elapsed + poll_interval)%Q Hl Hm) as [IHa IHr]; assumption.
Qed.

(** X6.  Where the elapsed wait adds up without rounding, the maximum
    wait bounds the number of fetches: on a transcript of [n >= 1]
    responses, with an elapsed wait and an interval whose next [n] sums
    are exact in binary64 and with [elapsed + (n - 1) * poll_interval >=
    max_wait_seconds], neither poller is left waiting for a further
    response; each has returned or raised. *)
Theorem poller_ends_by_deadline
        (run_id : json) (max_wait_seconds : Z) (poll_interval : Q)
        (responses : list http_response) (elapsed : Q) :
  responses <> [] ->
  exact_steps elapsed poll_interval (List.length responses) ->
  (inject_Z max_wait_seconds
   <= elapsed + (inject_Z (Z.of_nat (List.length responses)) - 1) * poll_interval)%Q ->
  snd (App.poll_loop run_id max_wait_seconds poll_interval responses elapsed)
  <> AwaitsResponse
  /\
  snd (FastApi.poll_loop run_id max_wait_seconds poll_interval responses elapsed)
  <> AwaitsResponse.
Proof.
  intros Hne _ Hmax. apply poll_loops_end; [exact Hne | exact Hmax].
Qed.

Lemma poller_ends_by_deadline_witness :
  let running := mk_response 200 "" (Some (JObject [("status", JString "running")])) in
  snd (App.poll_loop (JString "r1") 1 (1 # 2) [running; running; running] 0)
  <> AwaitsResponse
  /\
  snd (FastApi.poll_loop (JString "r1") 1 (1 # 2) [running; running; running] 0)
  <> AwaitsResponse.
Proof.
  apply (poller_ends_by_deadline
           (JString "r1") 1 (1 # 2)
           [mk_response 200 "" (Some (JObject [("status", JString "running")]));
            mk_response 200 "" (Some (JObject [("status", JString "running")]));
            mk_response 200 "" (Some (JObject [("status", JString "running")]))] 0).
  - discriminate.
  - exists 1%nat, 0, 1. repeat split; try lia; reflexivity.
  - vm_compute. discriminate.
Defined.

Lemma sleeps_within_none (p : Q) (m : Z) (e : Q) (rs : list http_response) :
  sleeps_within p m e rs [].
Proof.
  split; [constructor|]. split; [simpl; lia|]. intros k H. discriminate.
Qed.

Lemma sleeps_within_next (p : Q) (m : Z) (e : Q) (resp : http_response)
      (later : list http_response) (slept : list Q) :
  deadline_reached e m = false ->
  sleeps_within p m (e + p) later slept ->
  sleeps_within p m e (resp :: later) (p :: slept).
Proof.
  intros Hd (Hall & Hlen & Hlast). apply deadline_reached_iff in Hd.
  split; [now constructor|]. split; [simpl; lia|].
  intros k Hk. simpl in Hk. injection Hk as Hk.
  destruct k as [|k].
  - change (inject_Z (Z.of_nat 0)) with 0%Q. lra.
  - specialize (Hlast k Hk). rewrite inject_succ. lra.
Qed.

Lemma poll_loops_sleep_within
      (run_id : json) (max_wait_seconds : Z) (poll_interval : Q)
      (responses : list http_response) (elapsed : Q) :
  sleeps_within poll_interval max_wait_seconds elapsed responses
    (fst (App.poll_loop run_id max_wait_seconds poll_interval responses elapsed))
  /\
  sleeps_within poll_interval max_wait_seconds elapsed responses
    (fst (FastApi.poll_loop run_id max_wait_seconds poll_interval responses elapsed)).
Proof.
  revert elapsed. induction responses as [|resp later IH]; intros elapsed.
  - split; apply sleeps_within_none.
  - destruct (IH (elapsed + poll_interval)%Q) as [IHa IHr].
    split; loop_cases; simpl; try apply sleeps_within_none;
      now apply sleeps_within_next.
Qed.

(** X7.  Where the elapsed wait adds up without rounding, neither poller
    sleeps past the deadline: with an elapsed wait and an interval whose
    sums over the transcript are exact in binary64, every sleep lasts
    one poll interval, there is at most one sleep for each response
    read, and the last sleep began while the elapsed wait was still
    below the maximum. *)
Theorem poller_sleeps_before_deadline
        (run_id : json) (max_wait_seconds : Z) (poll_interval : Q)
        (responses : list http_response) (elapsed : Q) :
  exact_steps elapsed poll_interval (List.length responses) ->
  sleeps_within poll_interval max_wait_seconds elapsed responses
    (fst (App.poll_loop run_id max_wait_seconds poll_interval responses elapsed))
  /\
  sleeps_within poll_interval max_wait_seconds elapsed responses
    (fst (FastApi.poll_loop run_id max_wait_seconds poll_interval responses elapsed)).
Proof. intros _. apply poll_loops_sleep_within. Qed.

Lemma poller_sleeps_before_deadline_witness :
  let running := mk_response 200 "" (Some (JObject [("status", JString "running")])) in
  sleeps_within (1 # 2) 1 0 [running; running; running; running]
    (fst (App.poll_loop (JString "r1") 1 (1 # 2)
                        [running; running; running; running] 0))
  /\
  sleeps_within (1 # 2) 1 0 [running; running; running; running]
    (fst (FastApi.poll_loop (JString "r1") 1 (1 # 2)
                            [running; running; running; running] 0)).
Proof.
  apply (poller_sleeps_before_deadline
           (JString "r1") 1 (1 # 2)
           [mk_response 200 "" (Some (JObject [("status", JString "running")]));
            mk_response 200 "" (Some (JObject [("status", JString "running")]));
            mk_response 200 "" (Some (JObject [("status", JString "running")]));
            mk_response 200 "" (Some (JObject [("status", JString "running")]))] 0).
  exists 1%nat, 0, 1. repeat split; try lia; reflexivity.
Defined.

Lemma exit_accounted_later (terminal : json -> bool) (b : bool) (run_id : json)
      (m : Z) (p : Q) (resp : http_response) (later : list http_response)
      (exit : poll_exit) :
  exit_accounted terminal b run_id m p later exit ->
  exit_accounted terminal b run_id m p (resp :: later) exit.
Proof.
  destruct exit as [message [j|c d|r mx j]|e|]; simpl; auto.
  - intros (H1 & H2 & x & Hx & Hj). repeat split; auto. exists x. split; [now right | exact Hj].
  - intros (H1 & H2 & x & Hx & Hj). repeat split; auto. exists x. split; [now right | exact Hj].
  - intros (H1 & H2 & H3 & H4 & x & Hx & Hj). repeat split; auto.
    exists x. split; [now right | exact Hj].
  - intros [(H1 & x & Hx & Hj)|H]; [left|now right].
    split; [exact H1|]. exists x. split; [now right | exact Hj].
Qed.

Lemma poll_loops_accounted
        (run_id : json) (max_wait_seconds : Z) (poll_interval : Q)
        (responses : list http_response) (elapsed : Q) :
  exit_accounted (fun j => App.is_terminal (App.run_status j)) true
                 run_id max_wait_seconds poll_interval responses
    (snd (App.poll_loop run_id max_wait_seconds poll_interval responses elapsed))
  /\
  exit_accounted (fun j => FastApi.is_terminal (FastApi.run_status j)) false
                 run_id max_wait_seconds poll_interval responses
    (snd (FastApi.poll_loop run_id max_wait_seconds poll_interval responses elapsed)).
Proof.
  revert elapsed. induction responses as [|resp later IH]; intros elapsed.
  - split; exact I.
  - destruct (IH (elapsed + poll_interval)%Q) as [IHa IHr].
    assert (Hin : In resp (resp :: later)) by now left.
    split; loop_cases; simpl; try (now apply exit_accounted_later).
    all: repeat match goal with
           | H : negb (status_code _ =? 200) = true |- _ =>
               apply negb_true_iff, Z.eqb_neq in H
           | H : negb (status_code _ =? 200) = false |- _ =>
               apply negb_false_iff, Z.eqb_eq in H
           | H : negb (Qle_bool 0 _) = true |- _ =>
               apply negb_true_iff in H
           end.
    all: try (repeat split; auto; eexists; repeat split; eauto; fail).
    all: try (left; split; [reflexivity|]; eexists; eauto; fail).
    right. repeat split. apply Qnot_le_lt. intros L.
    apply Qle_bool_iff in L. congruence.
Qed.

(** X8.  Whatever a poller hands back comes from a response it read.  A
    message is returned only with a run body: it is the extraction of
    that body, the body was fetched with status 200 and its status ended
    the poll.  A transport error carries the code and the text of a
    response whose status was not 200, a timeout the poller's own
    [run_id] and maximum and a fetched body that did not end the poll,
    both with no message.  The relay's poller raises only when a 200
    response is not JSON, app.py's also when the poll interval is
    negative. *)
Theorem poller_exit_accounted
        (run_id : json) (max_wait_seconds : Z) (poll_interval : Q)
        (responses : list http_response) (elapsed : Q) :
  exit_accounted (fun j => App.is_terminal (App.run_status j)) true
                 run_id max_wait_seconds poll_interval responses
    (snd (App.poll_loop run_id max_wait_seconds poll_interval responses elapsed))
  /\
  exit_accounted (fun j => FastApi.is_terminal (FastApi.run_status j)) false
                 run_id max_wait_seconds poll_interval responses
    (snd (FastApi.poll_loop run_id max_wait_seconds poll_interval responses elapsed)).
Proof. apply poll_loops_accounted. Qed.

Lemma terminal_agree (run_json : json) :
  negb (truthy (status_of run_json)) || is_str (status_of run_json) = true ->
  App.is_terminal (App.run_status run_json)
  = FastApi.is_terminal (FastApi.run_status run_json).
Proof.
  rewrite app_terminal_unless_running, relay_terminal_cases.
  generalize (status_of run_json). intros status H.
  assert (He : truthy status = false -> says_running status = false).
  { destruct status as [|b|n|f|s|l|d]; simpl; try reflexivity.
    destruct (s =? "")%string eqn:E; [|discriminate].
    apply String.eqb_eq in E. subst. reflexivity. }
  destruct (truthy status) eqn:T; destruct (is_str status) eqn:S;
    simpl in *; try discriminate.
  - reflexivity.
  - now rewrite He.
  - now rewrite He.
Qed.

(** X9.  The two pollers behave alike on every transcript in which no
    200 response has a status that is truthy and not a string: with a
    poll interval that is not negative they sleep as often and end the
    same way. *)
Theorem pollers_agree_on_plain_statuses
        (run_id : json) (max_wait_seconds : Z) (poll_interval : Q)
        (responses : list http_response) (elapsed : Q) :
  (0 <= poll_interval)%Q ->
  forallb plain_status responses = true ->
  App.poll_loop run_id max_wait_seconds poll_interval responses elapsed
  = FastApi.poll_loop run_id max_wait_seconds poll_interval responses elapsed.
Proof.
  intros Hp. revert elapsed.
  induction responses as [|resp later IH]; intros elapsed Hplain; [reflexivity|].
  simpl in Hplain. apply andb_true_iff in Hplain as [Hresp Hlater].
  specialize (IH (elapsed + poll_interval)%Q Hlater).
  assert (Hs : negb (Qle_bool 0 poll_interval) = false).
  { apply negb_false_iff. now apply Qle_bool_iff. }
  unfold plain_status in Hresp.
  rewrite app_loop_cons, relay_loop_cons, Hs.
  destruct (negb (status_code resp =? 200)); [reflexivity|].
  destruct (json_body resp) as [run_json|]; [|reflexivity].
  simpl in Hresp. rewrite (terminal_agree _ Hresp), IH. reflexivity.
Qed.

Lemma pollers_agree_on_plain_statuses_witness :
  let transcript :=
    [mk_response 200 "" (Some (JObject [("state", JString "RUNNING")]));
     mk_response 200 "" (Some (JObject [("state", JString "running")]));
     mk_response 200 "" (Some (JObject [("output", JString "hi")]))] in
  App.poll_loop (JString "r1") 5 (1 # 2) transcript 0
  = FastApi.poll_loop (JString "r1") 5 (1 # 2) transcript 0.
Proof.
  apply (pollers_agree_on_plain_statuses
           (JString "r1") 5 (1 # 2)
           [mk_response 200 "" (Some (JObject [("state", JString "RUNNING")]));
            mk_response 200 "" (Some (JObject [("state", JString "running")]));
            mk_response 200 "" (Some (JObject [("output", JString "hi")]))] 0).
  - vm_compute. discriminate.
  - reflexivity.
Defined.

(** X10.  A token provider returns normally only on a success answer
    whose body is a JSON object, and what it returns is that object's
    [access_token] ([None] when absent).  app.py accepts any status in
    200..299, the relay only 200; a body that is not JSON or not an
    object makes both raise. *)
Theorem token_returned_iff (api_key : string) (resp : http_response) (v : json) :
  (App.get_bearer_token_sync api_key resp = Ok v <->
   is_success (status_code resp) = true
   /\ exists body, json_body resp = Some (JObject body)
                   /\ v = dict_get body "access_token")
  /\
  (FastApi.get_bearer_token api_key resp = Ok v <->
   status_code resp = 200
   /\ exists body, json_body resp = Some (JObject body)
                   /\ v = dict_get body "access_token").
Proof.
  unfold App.get_bearer_token_sync, FastApi.get_bearer_token,
    raise_for_status, resp_json.
  split; split.
  - destruct (is_success (status_code resp)); [|discriminate].
    destruct (json_body resp) as [[| | | | | |body]|]; try discriminate.
    intros E. injection E as <-. split; [reflexivity|]. eauto.
  - intros (Hs & body & Hb & ->). now rewrite Hs, Hb.
  - destruct (status_code resp =? 200) eqn:E200; [|discriminate].
    apply Z.eqb_eq in E200.
    destruct (json_body resp) as [[| | | | | |body]|]; try discriminate.
    intros E. injection E as <-. split; [exact E200|]. eauto.
  - intros (Hs & body & Hb & ->). now rewrite Hs, Hb.
Qed.

Lemma token_returned_iff_witness :
  let resp := mk_response 201 "" (Some (JObject [("access_token", JString "tok")])) in
  App.get_bearer_token_sync "k" resp = Ok (JString "tok")
  /\ FastApi.get_bearer_token "k" resp <> Ok (JString "tok").
Proof.
  split.
  - apply (proj2 (proj1 (token_returned_iff
                           "k" (mk_response 201 "" (Some (JObject [("access_token", JString "tok")])))
                           (JString "tok")))).
    split; [reflexivity|]. exists [("access_token", JString "tok")]. now split.
  - intros H.
    apply (proj1 (proj2 (token_returned_iff
                           "k" (mk_response 201 "" (Some (JObject [("access_token", JString "tok")])))
                           (JString "tok")))) in H.
    destruct H as [H _]. discriminate.
Defined.

End PollerMore.

(** * Further properties of the session callback *)

Module SessionMore.
Import App SessionFacts PollerMore.

Section Callback.
Variable strip : string -> string.
Variable cfg : config.

(** Splits a run of the callback into the cases of its tests. *)
Ltac callback_cases :=
  unfold _send_callback, start_orchestrate_run_sync;
  repeat match goal with
  | |- context [if (strip (message_input ?s) =? "")%string then _ else _] =>
      destruct (strip (message_input s) =? "")%string eqn:?
  | |- context [match get_bearer_token_sync ?k ?r with _ => _ end] =>
      destruct (get_bearer_token_sync k r) eqn:?
  | |- context [match raise_for_status ?r with _ => _ end] =>
      destruct (raise_for_status r) eqn:?
  | |- context [match resp_json ?r with _ => _ end] =>
      let body := fresh "body" in
      destruct (resp_json r) as [body|] eqn:?; [destruct body|]
  | |- context [match snd (fetch_run_and_extract_message_sync ?a ?b ?c ?d ?e)
                with _ => _ end] =>
      destruct (snd (fetch_run_and_extract_message_sync a b c d e)) eqn:?
  | |- context [if truthy ?x && negb (truthy ?y) then _ else _] =>
      destruct (truthy x && negb (truthy y)) eqn:?
  | |- context [if truthy ?x then _ else _] =>
      destruct (truthy x) eqn:?
  end;
  cbv beta iota zeta.

Lemma callback_keeps_initialized (st : session_state) (env : send_env) :
  initialized (state_after (_send_callback strip cfg st env)) = initialized st.
Proof. callback_cases; reflexivity. Qed.

Lemma callback_launches_payload (st : session_state) (env : send_env) (posted : dict) :
  In posted (launches (_send_callback strip cfg st env)) ->
  posted = launch_payload (strip (message_input st)) (DEFAULT_AGENT_ID cfg)
                          (thread_id st).
Proof.
  callback_cases; simpl; intros H; try contradiction;
    destruct H as [<-|[]]; reflexivity.
Qed.

Lemma launch_answered_start
      (st : session_state) (env : send_env) (token : json) (fields : dict) :
  launch_answered cfg (strip (message_input st)) env token fields ->
  (strip (message_input st) =? "")%string = false
  /\ get_bearer_token_sync (IAM_API_KEY cfg) (token_response env) = Ok token
  /\ raise_for_status (launch_response env) = Ok tt
  /\ resp_json (launch_response env) = Ok (JObject fields).
Proof.
  intros (Hmsg & Htok & Hs & Hb).
  split; [now apply String.eqb_neq|]. split; [exact Htok|].
  unfold raise_for_status, resp_json. now rewrite Hs, Hb.
Qed.

(** Unfolds a run of the callback whose launch was answered with a JSON
    object, as far as the adoption of the thread and the test of the run
    identifier. *)
Ltac answered_launch H fields :=
  apply launch_answered_start in H;
  destruct H as (Hmsg & Htok & Hstatus & Hbody);
  unfold _send_callback, start_orchestrate_run_sync;
  cbv zeta;
  rewrite Hmsg, Htok, Hstatus, Hbody;
  cbv beta iota zeta;
  fold (returned_thread_id fields); fold (returned_run_id fields).


(** X12.  A run of the callback whose launch is answered with a JSON
    object records one interaction when there is no run identifier to
    poll, and whenever the poll returns: the interaction holds the
    stripped message, the session's [thread_id], the run identifier and
    the message the poller returned, which is [None] without a poll and
    [None] when the poll ended in a timeout or a transport error; the
    text area is cleared and no error is set.  In every run the
    callback either records one interaction and clears the text area,
    or does neither. *)
Theorem callback_records_or_keeps_input (st : session_state) (env : send_env) :
  (forall token fields,
      launch_answered cfg (strip (message_input st)) env token fields ->
      truthy (returned_run_id fields) = false ->
      recorded (strip (message_input st)) st env fields None
               (_send_callback strip cfg st env))
  /\
  (forall token fields message details,
      launch_answered cfg (strip (message_input st)) env token fields ->
      truthy (returned_run_id fields) = true ->
      snd (fetch_run_and_extract_message_sync
             (returned_run_id fields) (launch_headers cfg token)
             5 (1 # 2) (poll_responses env))
      = Returns message details ->
      recorded (strip (message_input st)) st env fields message
               (_send_callback strip cfg st env)
      /\ ((forall j, details <> RunBody j) -> message = None))
  /\
  ((history (state_after (_send_callback strip cfg st env)) = history st
    /\ message_input (state_after (_send_callback strip cfg st env))
       = message_input st)
   \/ (exists i,
         history (state_after (_send_callback strip cfg st env))
         = (history st ++ [i])%list
         /\ message_input (state_after (_send_callback strip cfg st env)) = ""
         /\ user_message i = strip (message_input st)
         /\ user_message i <> ""
         /\ interaction_thread_id i
            = thread_id (state_after (_send_callback strip cfg st env))
         /\ last_error (state_after (_send_callback strip cfg st env))
            = last_error st
         /\ exit_of (_send_callback strip cfg st env) = Finished)).
Proof.
  split; [|split].
  - intros token fields H Hrun. unfold recorded. answered_launch H fields.
    rewrite Hrun.
    destruct (truthy (returned_thread_id fields) && negb (truthy (thread_id st)));
      simpl; repeat split.
  - intros token fields message details H Hrun Hret. split.
    + unfold recorded. answered_launch H fields. rewrite Hrun.
      unfold launch_headers in Hret. unfold launch_headers. rewrite Hret.
      destruct (truthy (returned_thread_id fields) && negb (truthy (thread_id st)));
        simpl; repeat split.
    + intros Herr.
      pose proof (proj1 (poll_loops_accounted
                           (returned_run_id fields) 5 (1 # 2)
                           (poll_responses env) 0)) as A.
      unfold fetch_run_and_extract_message_sync in Hret. rewrite Hret in A.
      destruct details as [j|code detail|r m j]; simpl in A.
      * now contradiction (Herr j).
      * now destruct A.
      * now destruct A.
  - callback_cases; simpl; auto.
    all: right; eexists; repeat split; simpl;
      match goal with
      | H : (_ =? "")%string = false |- _ => apply String.eqb_neq in H; exact H
      end.
Qed.

(** X13.  The callback hands at most one body to [client.post] for the
    run-creation endpoint, made of the stripped message, the configured
    agent and the session's [thread_id]; it hands over none when the
    stripped message is empty and none when the token provider
    raised. *)
Theorem callback_launches_once (st : session_state) (env : send_env) :
  (launches (_send_callback strip cfg st env) = []
   \/ launches (_send_callback strip cfg st env)
      = [launch_payload (strip (message_input st)) (DEFAULT_AGENT_ID cfg)
                        (thread_id st)])
  /\
  (strip (message_input st) = ""
   \/ (exists e, get_bearer_token_sync (IAM_API_KEY cfg) (token_response env)
                 = Raised e) ->
   launches (_send_callback strip cfg st env) = []).
Proof.
  callback_cases; simpl; split; auto; intros H; try reflexivity.
  all: repeat match goal with
         | H : (_ =? "")%string = true |- _ => apply String.eqb_eq in H
         | H : (_ =? "")%string = false |- _ => apply String.eqb_neq in H
         end.
  all: destruct H as [H|[? H]]; [contradiction | discriminate].
Qed.

Lemma callback_history_step (st : session_state) (env : send_env) :
  exists added,
    history (state_after (_send_callback strip cfg st env))
    = (history st ++ added)%list
    /\ (List.length added <= 1)%nat
    /\ Forall (fun i => user_message i <> "") added.
Proof.
  callback_cases; simpl;
    try (exists []; rewrite app_nil_r; repeat split; auto; fail).
  all: eexists [_]; repeat split; auto; constructor; [|constructor]; simpl;
    match goal with
    | H : (_ =? "")%string = false |- _ => apply String.eqb_neq in H; exact H
    end.
Qed.

Lemma script_run_keeps_history (st : session_state) :
  initialized st = true -> history (script_run st) = history st.
Proof.
  intros H. unfold script_run. rewrite H.
  destruct (last_error st =? "")%string; reflexivity.
Qed.

(** X14.  The history of a session only grows: a conversation leaves
    every interaction already recorded in place, in order, and adds at
    most one interaction for each send, each with a non-empty user
    message. *)
Theorem conversation_history_grows (st : session_state) (events : list send_event) :
  initialized st = true ->
  exists added,
    history (fst (conversation strip cfg st events)) = (history st ++ added)%list
    /\ (List.length added <= List.length events)%nat
    /\ Forall (fun i => user_message i <> "") added.
Proof.
  revert st. induction events as [|ev later IH]; intros st Hi; simpl.
  - exists []. rewrite app_nil_r. repeat split; auto.
  - set (st0 := set_message_input st (typed ev)).
    destruct (callback_history_step st0 (world ev)) as (a1 & H1 & L1 & F1).
    change (history st0) with (history st) in H1.
    pose proof (callback_keeps_initialized st0 (world ev)) as Hin.
    change (initialized st0) with (initialized st) in Hin. rewrite Hi in Hin.
    destruct (script_run_keeps_thread _ Hin) as (_ & His).
    destruct (IH _ His) as (a2 & H2 & L2 & F2).
    rewrite (script_run_keeps_history _ Hin), H1 in H2.
    assert (Hgo : exists added,
               history (fst (let (st', posted) :=
                               conversation strip cfg
                                 (script_run (state_after (_send_callback strip cfg st0 (world ev))))
                                 later in
                             (st', (launches (_send_callback strip cfg st0 (world ev)) ++ posted)%list)))
               = (history st ++ added)%list
               /\ (List.length added <= S (List.length later))%nat
               /\ Forall (fun i => user_message i <> "") added).
    { destruct (conversation strip cfg _ later) as [st' posted]. simpl in *.
      exists (a1 ++ a2)%list. rewrite H2, <- app_assoc. split; [reflexivity|].
      split; [rewrite length_app; lia | now apply Forall_app]. }
    destruct (exit_of (_send_callback strip cfg st0 (world ev))); try exact Hgo.
    simpl. exists a1. split; [exact H1|]. split; [lia | exact F1].
Qed.

(** X15.  The callback makes at most eleven status fetches: with eleven
    or more responses at hand it is never left waiting for another; it
    runs to its end or an exception leaves it.  (Its poll has a maximum
    wait of 5 and an interval of 0.5.) *)
Theorem callback_polls_at_most_eleven_times (st : session_state) (env : send_env) :
  (11 <= List.length (poll_responses env))%nat ->
  exit_of (_send_callback strip cfg st env) <> Waiting.
Proof.
  intros Hlen.
  assert (Hend : forall run_id hdrs,
             snd (fetch_run_and_extract_message_sync
                    run_id hdrs 5 (1 # 2) (poll_responses env)) <> AwaitsResponse).
  { intros run_id hdrs. unfold fetch_run_and_extract_message_sync.
    apply (poll_loops_end run_id 5 (1 # 2) (poll_responses env) 0).
    - intros E. rewrite E in Hlen. simpl in Hlen. lia.
    - assert (H11 : (inject_Z 11 <= inject_Z (Z.of_nat (List.length (poll_responses env))))%Q).
      { rewrite <- Zle_Qle. lia. }
      change (inject_Z 5) with 5%Q. change (inject_Z 11) with 11%Q in H11. lra. }
  callback_cases; simpl; try discriminate.
  all: exfalso; eapply Hend; eassumption.
Qed.

Lemma callback_launches_carry (st : session_state) (env : send_env) :
  (truthy (thread_id st) = false ->
   Forall omits_thread (launches (_send_callback strip cfg st env)))
  /\ (truthy (thread_id st) = true ->
      Forall (carries_thread (thread_id st))
             (launches (_send_callback strip cfg st env))).
Proof.
  split; intros Ht; apply Forall_forall; intros posted Hin;
    rewrite (callback_launches_payload _ _ _ Hin).
  - now apply launch_payload_omits.
  - now apply launch_payload_carries.
Qed.

(** X16.  A conversation never changes thread: the bodies it posts to
    the run-creation endpoint are first some without a [thread_id] and
    then bodies that all carry one and the same [thread_id]; when the
    session holds a [thread_id] at the start, every body carries that
    one. *)
Theorem conversation_keeps_one_thread (st : session_state) (events : list send_event) :
  initialized st = true ->
  exists pre post t,
    snd (conversation strip cfg st events) = (pre ++ post)%list
    /\ Forall omits_thread pre
    /\ Forall (carries_thread t) post
    /\ (truthy (thread_id st) = true -> pre = [] /\ t = thread_id st).
Proof.
  revert st. induction events as [|ev later IH]; intros st Hi; simpl.
  - exists [], [], (thread_id st). repeat split; constructor.
  - set (st0 := set_message_input st (typed ev)).
    destruct (callback_launches_carry st0 (world ev)) as [Homit Hcarry].
    change (thread_id st0) with (thread_id st) in Homit, Hcarry.
    pose proof (callback_keeps_initialized st0 (world ev)) as Hin.
    change (initialized st0) with (initialized st) in Hin. rewrite Hi in Hin.
    destruct (script_run_keeps_thread _ Hin) as (Hs & His).
    destruct (IH _ His) as (pre & post & t & E & Fpre & Fpost & Hkeep).
    rewrite Hs in Hkeep.
    assert (Hstop : exists pre0 post0 t0,
               launches (_send_callback strip cfg st0 (world ev)) = (pre0 ++ post0)%list
               /\ Forall omits_thread pre0 /\ Forall (carries_thread t0) post0
               /\ (truthy (thread_id st) = true -> pre0 = [] /\ t0 = thread_id st)).
    { destruct (truthy (thread_id st)) eqn:Ht.
      - exists [], (launches (_send_callback strip cfg st0 (world ev))), (thread_id st).
        repeat split; auto; constructor.
      - exists (launches (_send_callback strip cfg st0 (world ev))), [], (thread_id st).
        rewrite app_nil_r. repeat split; auto; try constructor; discriminate. }
    assert (Hgo : exists pre0 post0 t0,
               snd (let (st', posted) :=
                      conversation strip cfg
                        (script_run (state_after (_send_callback strip cfg st0 (world ev))))
                        later in
                    (st', (launches (_send_callback strip cfg st0 (world ev)) ++ posted)%list))
               = (pre0 ++ post0)%list
               /\ Forall omits_thread pre0 /\ Forall (carries_thread t0) post0
               /\ (truthy (thread_id st) = true -> pre0 = [] /\ t0 = thread_id st)).
    { destruct (conversation strip cfg _ later) as [st' posted]. simpl in *.
      destruct (truthy (thread_id st)) eqn:Ht.
      - destruct (callback_keeps_thread strip cfg st0 (world ev) Ht) as (Hk & _ & _).
        change (thread_id st0) with (thread_id st) in Hk.
        rewrite Hk, Ht in Hkeep. destruct (Hkeep eq_refl) as [-> ->].
        exists [], (launches (_send_callback strip cfg st0 (world ev)) ++ post)%list,
          (thread_id st).
        rewrite E. split; [reflexivity|]. split; [constructor|].
        split; [apply Forall_app; split; auto | auto].
      - exists (launches (_send_callback strip cfg st0 (world ev)) ++ pre)%list, post, t.
        rewrite E, app_assoc. split; [reflexivity|].
        split; [apply Forall_app; split; auto|].
        split; [exact Fpost | discriminate]. }
    destruct (exit_of (_send_callback strip cfg st0 (world ev)));
      try exact Hgo.
    simpl. exact Hstop.
Qed.

End Callback.

Lemma callback_launches_once_witness :
  let st := mk_session [] JNull "hello" "" true in
  let env :=
    mk_send_env (mk_response 401 "denied" None)
                (mk_response 200 "" (Some (JObject [("run_id", JString "r1")])))
                [] "t0" in
  launches (_send_callback (fun s => s) (mk_config "u" "k" "a") st env) = [].
Proof.
  apply (proj2 (callback_launches_once
                  (fun s => s) (mk_config "u" "k" "a")
                  (mk_session [] JNull "hello" "" true)
                  (mk_send_env (mk_response 401 "denied" None)
                               (mk_response 200 "" (Some (JObject [("run_id", JString "r1")])))
                               [] "t0"))).
  right. exists (HTTPStatusError 401). reflexivity.
Defined.


Lemma callback_records_or_keeps_input_witness :
  let st := mk_session [] (JString "t1") "hello" "" true in
  let running := mk_response 200 "" (Some (JObject [("status", JString "running")])) in
  let env :=
    mk_send_env
      (mk_response 200 "" (Some (JObject [("access_token", JString "tok")])))
      (mk_response 200 "" (Some (JObject [("run_id", JString "r1")])))
      (repeat running 11) "t0" in
  recorded "hello" st env [("run_id", JString "r1")] None
           (_send_callback (fun s => s) (mk_config "u" "k" "a") st env).
Proof.
  apply (proj1 (proj2 (callback_records_or_keeps_input
                         (fun s => s) (mk_config "u" "k" "a")
                         (mk_session [] (JString "t1") "hello" "" true)
                         (mk_send_env
                            (mk_response 200 "" (Some (JObject [("access_token", JString "tok")])))
                            (mk_response 200 "" (Some (JObject [("run_id", JString "r1")])))
                            (repeat (mk_response 200 "" (Some (JObject [("status", JString "running")]))) 11)
                            "t0")))
               (JString "tok") [("run_id", JString "r1")] None
               (Timeout (JString "r1") 5 (JObject [("status", JString "running")]))).
  - repeat split; [discriminate | reflexivity..].
  - reflexivity.
  - reflexivity.
Defined.

Lemma conversation_history_grows_witness :
  let st := mk_session [] JNull "" "" true in
  let ok := mk_response 200 "" (Some (JObject [("access_token", JString "tok")])) in
  let launched := mk_response 200 "" (Some (JObject [("run_id", JString "r1")])) in
  let done := mk_response 200 "" (Some (JObject [("output", JString "hi")])) in
  let events :=
    [mk_send_event "   " (mk_send_env ok launched [done] "t0");
     mk_send_event "hello" (mk_send_env ok launched [done] "t1")] in
  exists added,
    history (fst (conversation (fun s => if (s =? "   ")%string then "" else s)
                               (mk_config "u" "k" "a") st events))
    = (history st ++ added)%list
    /\ (List.length added <= List.length events)%nat
    /\ Forall (fun i => user_message i <> "") added.
Proof.
  apply (conversation_history_grows
           (fun s => if (s =? "   ")%string then "" else s)
           (mk_config "u" "k" "a") (mk_session [] JNull "" "" true)).
  reflexivity.
Defined.

Lemma callback_polls_at_most_eleven_times_witness :
  let running := mk_response 200 "" (Some (JObject [("status", JString "running")])) in
  let env :=
    mk_send_env
      (mk_response 200 "" (Some (JObject [("access_token", JString "tok")])))
      (mk_response 200 "" (Some (JObject [("run_id", JString "r1")])))
      (repeat running 11) "t0" in
  exit_of (_send_callback (fun s => s) (mk_config "u" "k" "a")
                          (mk_session [] JNull "hello" "" true) env)
  <> Waiting.
Proof.
  apply (callback_polls_at_most_eleven_times
           (fun s => s) (mk_config "u" "k" "a")
           (mk_session [] JNull "hello" "" true)
           (mk_send_env
              (mk_response 200 "" (Some (JObject [("access_token", JString "tok")])))
              (mk_response 200 "" (Some (JObject [("run_id", JString "r1")])))
              (repeat (mk_response 200 "" (Some (JObject [("status", JString "running")]))) 11)
              "t0")).
  simpl. lia.
Defined.

Lemma conversation_keeps_one_thread_witness :
  let st := mk_session [] JNull "" "" true in
  let ok := mk_response 200 "" (Some (JObject [("access_token", JString "tok")])) in
  let done := mk_response 200 "" (Some (JObject [("output", JString "hi")])) in
  let first :=
    mk_response 200 "" (Some (JObject [("threadId", JString "t1"); ("run_id", JString "r")])) in
  let second :=
    mk_response 200 "" (Some (JObject [("threadId", JString "t2"); ("run_id", JString "r")])) in
  let events :=
    [mk_send_event "one" (mk_send_env ok first [done] "d1");
     mk_send_event "two" (mk_send_env ok second [done] "d2");
     mk_send_event "three" (mk_send_env ok second [done] "d3")] in
  exists pre post t,
    snd (conversation (fun s => s) (mk_config "u" "k" "a") st events)
    = (pre ++ post)%list
    /\ Forall omits_thread pre
    /\ Forall (carries_thread t) post
    /\ (truthy (thread_id st) = true -> pre = [] /\ t = thread_id st).
Proof.
  apply (conversation_keeps_one_thread
           (fun s => s) (mk_config "u" "k" "a") (mk_session [] JNull "" "" true)).
  reflexivity.
Defined.

End SessionMore.

(** * Properties of the chat endpoint *)

Module RelayFacts.
Import Extractor Relay PollerMore.

(** Splits a call of the endpoint into the cases of its tests. *)
Ltac chat_cases :=
  unfold chat_with_agent;
  repeat match goal with
  | |- context [match FastApi.get_bearer_token ?k ?r with _ => _ end] =>
      let e := fresh "e" in
      destruct (FastApi.get_bearer_token k r) as [|e] eqn:?; [|destruct e]
  | |- context [if status_code ?r =? 200 then _ else _] =>
      destruct (status_code r =? 200) eqn:?
  | |- context [if negb (text ?r =? "")%string then _ else _] =>
      destruct (negb (text r =? "")%string) eqn:?
  | |- context [match resp_json ?r with _ => _ end] =>
      let body := fresh "body" in
      destruct (resp_json r) as [body|] eqn:?; [try destruct body|]
  | |- context [match snd (FastApi._fetch_run_and_extract_message ?a ?b ?c ?d ?e)
                with _ => _ end] =>
      destruct (snd (FastApi._fetch_run_and_extract_message a b c d e)) eqn:?
  | |- context [if truthy ?x then _ else _] =>
      destruct (truthy x) eqn:?
  end;
  cbv beta iota zeta.

Lemma resp_json_ok (resp : http_response) (j : json) :
  resp_json resp = Ok j -> json_body resp = Some j.
Proof.
  unfold resp_json. destruct (json_body resp); [|discriminate].
  intros E. now injection E as ->.
Qed.

(** X17.  A call of the chat endpoint whose launch is answered 200 with
    a JSON object returns whenever the poll returns, and also when there
    is no run identifier to poll: its [orchestrate_response] is that
    object, unchanged, and its [agent_message] and [run_details] are
    what the poller handed back ([None] and [None] without a poll), so a
    poll that timed out or met a transport error still makes the
    endpoint return, with the error as [run_details].  Conversely,
    whatever the endpoint returns is accounted for in this way: the
    launch was answered 200 with the returned object, and a message
    comes only with a run body, of which it is the extraction. *)
Theorem chat_response_accounted
        (cfg : config) (request : ChatRequest) (env : chat_env) :
  (forall token fields,
      chat_launch_answered cfg env token fields ->
      truthy (returned_run_id fields) = false ->
      snd (chat_with_agent cfg request env)
      = ChatReturns (JObject fields) None None)
  /\
  (forall token fields message details,
      chat_launch_answered cfg env token fields ->
      truthy (returned_run_id fields) = true ->
      snd (FastApi._fetch_run_and_extract_message
             (returned_run_id fields) (chat_headers cfg token)
             120 1 (poll_responses env))
      = Returns message details ->
      snd (chat_with_agent cfg request env)
      = ChatReturns (JObject fields) message (Some details))
  /\
  (forall r m d,
      snd (chat_with_agent cfg request env) = ChatReturns r m d ->
      answers (launch_response env) r
      /\ is_dict r = true
      /\ match d with
         | None => m = None
         | Some details =>
             exists run_id,
               exit_accounted (fun j => FastApi.is_terminal (FastApi.run_status j))
                              false run_id 120 1 (poll_responses env)
                              (Returns m details)
         end).
Proof.
  split; [|split].
  - intros token fields (Htok & Hs & Hb) Hrun.
    unfold chat_with_agent, resp_json. rewrite Htok. simpl.
    rewrite Hs, Hb. simpl. fold (returned_run_id fields). now rewrite Hrun.
  - intros token fields message details (Htok & Hs & Hb) Hrun Hret.
    unfold chat_with_agent, resp_json. rewrite Htok. simpl.
    rewrite Hs, Hb. simpl. fold (returned_run_id fields). now rewrite Hrun, Hret.
  - intros r m d.
    chat_cases; simpl; intros E; try discriminate; injection E as <- <- <-.
    all: match goal with
         | H : (status_code _ =? 200) = true |- _ => apply Z.eqb_eq in H
         end;
      match goal with
      | H : resp_json _ = Ok _ |- _ => apply resp_json_ok in H
      end;
      split; [now split|]; split; [reflexivity|]; try reflexivity.
    eexists.
    match goal with
    | H : snd (FastApi._fetch_run_and_extract_message ?rid _ _ _ _) = _ |- _ =>
        pose proof (proj2 (poll_loops_accounted rid 120 1 (poll_responses env) 0)) as A;
        unfold FastApi._fetch_run_and_extract_message in H; rewrite H in A; exact A
    end.
Qed.

Lemma chat_response_accounted_witness :
  let env :=
    mk_chat_env
      (mk_response 200 "" (Some (JObject [("access_token", JString "tok")])))
      (mk_response 200 "" (Some (JObject [("run_id", JString "r1")])))
      [mk_response 502 "bad gateway" None] in
  snd (chat_with_agent (mk_config "u" "k" "a") (mk_ChatRequest "hello" "a" None) env)
  = ChatReturns (JObject [("run_id", JString "r1")]) None
                (Some (TransportError 502 "bad gateway")).
Proof.
  apply (proj1 (proj2 (chat_response_accounted
                         (mk_config "u" "k" "a") (mk_ChatRequest "hello" "a" None)
                         (mk_chat_env
                            (mk_response 200 "" (Some (JObject [("access_token", JString "tok")])))
                            (mk_response 200 "" (Some (JObject [("run_id", JString "r1")])))
                            [mk_response 502 "bad gateway" None])))
               (JString "tok") [("run_id", JString "r1")]).
  - repeat split.
  - reflexivity.
  - reflexivity.
Defined.

(** X18.  With a token at hand, a launch answer whose status is not 200
    (a 201 or 202 as well) ends the endpoint without a poll.  It raises
    [HTTPException] with the upstream status: the detail is the fixed
    text when the answer has no text, and the decoded body when it has.
    When the text is not JSON, decoding it raises instead and the
    upstream status is lost. *)
Theorem chat_maps_launch_errors
        (cfg : config) (request : ChatRequest) (env : chat_env) (token : json) :
  FastApi.get_bearer_token (IAM_API_KEY cfg) (token_response env) = Ok token ->
  status_code (launch_response env) <> 200 ->
  (text (launch_response env) = "" ->
   snd (chat_with_agent cfg request env)
   = ChatHTTPError (status_code (launch_response env))
                   (JString "Unknown error from Orchestrate API"))
  /\ (text (launch_response env) <> "" ->
      forall j, json_body (launch_response env) = Some j ->
      snd (chat_with_agent cfg request env)
      = ChatHTTPError (status_code (launch_response env)) j)
  /\ (text (launch_response env) <> "" ->
      json_body (launch_response env) = None ->
      snd (chat_with_agent cfg request env) = ChatRaises JSONDecodeError).
Proof.
  intros Htok Hcode. apply Z.eqb_neq in Hcode.
  unfold chat_with_agent, resp_json. rewrite Htok. simpl. rewrite Hcode.
  split; [|split].
  - intros ->. reflexivity.
  - intros Ht j Hj. apply String.eqb_neq in Ht. now rewrite Ht, Hj.
  - intros Ht Hj. apply String.eqb_neq in Ht. now rewrite Ht, Hj.
Qed.

Lemma chat_maps_launch_errors_witness :
  let env :=
    mk_chat_env
      (mk_response 200 "" (Some (JObject [("access_token", JString "tok")])))
      (mk_response 502 "<html>Bad Gateway</html>" None)
      [] in
  snd (chat_with_agent (mk_config "u" "k" "a") (mk_ChatRequest "hello" "a" None) env)
  = ChatRaises JSONDecodeError.
Proof.
  refine (proj2 (proj2 (chat_maps_launch_errors
                          (mk_config "u" "k" "a") (mk_ChatRequest "hello" "a" None)
                          (mk_chat_env
                             (mk_response 200 "" (Some (JObject [("access_token", JString "tok")])))
                             (mk_response 502 "<html>Bad Gateway</html>" None)
                             [])
                          (JString "tok") _ _)) _ _);
    [reflexivity | discriminate | discriminate | reflexivity].
Defined.

(** X19.  Both front ends post the same body for the same message,
    agent and thread: the relay's body is app.py's launch body, an
    absent thread being [None].  The body has a [thread_id] field
    exactly when the request's [thread_id] is a non-empty string; an
    empty string is sent like no thread at all. *)
Theorem front_ends_post_same_body (request : ChatRequest) :
  chat_payload request
  = App.launch_payload (message request) (agent_id request)
                       (match thread_id request with
                        | Some t => JString t
                        | None => JNull
                        end)
  /\ dict_contains (chat_payload request) "thread_id"
     = match thread_id request with
       | Some t => negb (t =? "")%string
       | None => false
       end
  /\ dict_get (chat_payload request) "message"
     = JObject [("role", JString "user"); ("content", JString (message request))]
  /\ dict_get (chat_payload request) "agent_id" = JString (agent_id request).
Proof.
  unfold chat_payload, App.launch_payload.
  destruct (thread_id request) as [t|]; simpl;
    [destruct (t =? "")%string|]; repeat split.
Qed.

(** X20.  The endpoint makes at most 121 status fetches: with 121 or
    more responses at hand it is never left waiting for another.  (Its
    poll has a maximum wait of 120 and an interval of 1.) *)
Theorem chat_polls_at_most_121_times
        (cfg : config) (request : ChatRequest) (env : chat_env) :
  (121 <= List.length (poll_responses env))%nat ->
  snd (chat_with_agent cfg request env) <> ChatAwaits.
Proof.
  intros Hlen.
  assert (Hend : forall run_id hdrs,
             snd (FastApi._fetch_run_and_extract_message
                    run_id hdrs 120 1 (poll_responses env)) <> AwaitsResponse).
  { intros run_id hdrs. unfold FastApi._fetch_run_and_extract_message.
    apply (poll_loops_end run_id 120 1 (poll_responses env) 0).
    - intros E. rewrite E in Hlen. simpl in Hlen. lia.
    - assert (H121 : (inject_Z 121
                      <= inject_Z (Z.of_nat (List.length (poll_responses env))))%Q).
      { rewrite <- Zle_Qle. lia. }
      change (inject_Z 120) with 120%Q. change (inject_Z 121) with 121%Q in H121.
      lra. }
  chat_cases; simpl; try discriminate.
  all: exfalso; eapply Hend; eassumption.
Qed.

Lemma chat_polls_at_most_121_times_witness :
  let running := mk_response 200 "" (Some (JObject [("status", JString "running")])) in
  let env :=
    mk_chat_env
      (mk_response 200 "" (Some (JObject [("access_token", JString "tok")])))
      (mk_response 200 "" (Some (JObject [("runId", JString "r1")])))
      (repeat running 121) in
  snd (chat_with_agent (mk_config "u" "k" "a") (mk_ChatRequest "hello" "a" None) env)
  <> ChatAwaits.
Proof.
  apply (chat_polls_at_most_121_times
           (mk_config "u" "k" "a") (mk_ChatRequest "hello" "a" None)
           (mk_chat_env
              (mk_response 200 "" (Some (JObject [("access_token", JString "tok")])))
              (mk_response 200 "" (Some (JObject [("runId", JString "r1")])))
              (repeat (mk_response 200 "" (Some (JObject [("status", JString "running")]))) 121))).
  simpl. lia.
Defined.

(** X21.  The chat endpoint hands at most one body to [client.post] for
    the run-creation endpoint, the one made from the request, and none
    when the token provider raised.  A token answer whose status is not
    200 ends the endpoint with [HTTPException] of that status and the
    detail ["Could not generate IAM token"]. *)
Theorem chat_launches_only_with_token
        (cfg : config) (request : ChatRequest) (env : chat_env) :
  (fst (chat_with_agent cfg request env) = []
   \/ fst (chat_with_agent cfg request env) = [chat_payload request])
  /\ ((exists e, FastApi.get_bearer_token (IAM_API_KEY cfg) (token_response env)
                 = Raised e) ->
      fst (chat_with_agent cfg request env) = [])
  /\ (status_code (token_response env) <> 200 ->
      chat_with_agent cfg request env
      = ([], ChatHTTPError (status_code (token_response env))
                           (JString "Could not generate IAM token"))).
Proof.
  split; [|split].
  - unfold chat_with_agent.
    destruct (FastApi.get_bearer_token _ _) as [token|[]]; simpl; auto.
  - unfold chat_with_agent.
    destruct (FastApi.get_bearer_token _ _) as [token|[]]; simpl;
      intros [e H]; try reflexivity; discriminate.
  - intros Hcode. apply Z.eqb_neq in Hcode.
    unfold chat_with_agent, FastApi.get_bearer_token. now rewrite Hcode.
Qed.

Lemma chat_launches_only_with_token_witness :
  let env :=
    mk_chat_env (mk_response 401 "denied" None)
                (mk_response 200 "" (Some (JObject [("run_id", JString "r1")])))
                [] in
  chat_with_agent (mk_config "u" "k" "a") (mk_ChatRequest "hello" "a" None) env
  = ([], ChatHTTPError 401 (JString "Could not generate IAM token")).
Proof.
  apply (proj2 (proj2 (chat_launches_only_with_token
                         (mk_config "u" "k" "a") (mk_ChatRequest "hello" "a" None)
                         (mk_chat_env (mk_response 401 "denied" None)
                                      (mk_response 200 "" (Some (JObject [("run_id", JString "r1")])))
                                      [])))).
  discriminate.
Defined.

End RelayFacts.
